(** * Crypto market-data ingestion: fetch, normalize, persist

    A shallow embedding of [src/ingestion/fetch_crypto_data.py]
    (class [CryptoDataFetcher] and the entry point [main]) and the
    properties of its pipeline.

    Python values decoded from JSON are the type [json]; a [dict] is a
    [gmap string json].  The methods run in a state-and-exception monad
    [M]: the state is the number of clock readings taken so far and the
    trace of observable effects (log records, HTTP calls, sleeps,
    directory and file writes, prints); whatever the outside world
    answers (clock, HTTP server, file system, configuration file) is
    read from an environment [Env]. *)

From stdpp Require Import gmap strings list.
From Stdlib Require Import ZArith Lia Ascii.

Set Warnings "-register-all".
Local Open Scope Z_scope.

(** ** Python values *)

(** What [response.json()] can return.  [JNull] is Python's [None]:
    a function of the source that returns [None] returns [JNull].
    A number is an [int] or a [float]; the code never looks inside a
    float, which is kept as mantissa and decimal exponent. *)
Inductive json : Type :=
  | JNull
  | JBool (b : bool)
  | JInt (z : Z)
  | JFloat (mantissa exponent : Z)
  | JStr (s : string)
  | JArr (items : list json)
  | JObj (fields : gmap string json).

(** Python truthiness, as tested by [if not raw_data]. *)
Definition truthy (v : json) : bool :=
  match v with
  | JNull => false
  | JBool b => b
  | JInt z => negb (z =? 0)
  | JFloat m _ => negb (m =? 0)
  | JStr s => negb (String.eqb s "")
  | JArr l => match l with [] => false | _ => true end
  | JObj m => negb (bool_decide (m = ∅))
  end.

(** [d.get(k)] on a dict: the value, [None] when the key is absent. *)
Definition dict_get (d : gmap string json) (k : string) : json :=
  default JNull (d !! k).

(** [d.get(k, dflt)]. *)
Definition dict_get_default (d : gmap string json) (k : string) (dflt : json) : json :=
  default dflt (d !! k).

(** ** Exceptions *)

(** The classes of [Exception] that the code names or that its calls
    raise.  [RequestsJSONDecodeError] is the class of recent versions of
    the HTTP library, a subclass of both [RequestException] and
    [ValueError]; [JSONDecodeError] is the plain subclass of
    [ValueError].  Every class here derives from [Exception], which
    is what [except Exception] catches; [KeyboardInterrupt] and
    [SystemExit], which do not and which come from outside a run (a
    signal, the interpreter), are not modelled. *)
Inductive exn_class : Type :=
  | ConnectionError
  | RequestTimeout
  | HTTPError (status : Z)
  | RequestsJSONDecodeError
  | OtherRequestException
  | JSONDecodeError
  | ValueError
  | AttributeError
  | KeyError
  | TypeError
  | ZeroDivisionError
  | FileNotFoundError
  | OSError
  | OtherException.

Record exn : Type := Exn { exn_cls : exn_class; exn_text : string }.

(** [isinstance(e, requests.exceptions.RequestException)]. *)
Definition is_RequestException (e : exn) : bool :=
  match exn_cls e with
  | ConnectionError | RequestTimeout | HTTPError _
  | RequestsJSONDecodeError | OtherRequestException => true
  | _ => false
  end.

(** [isinstance(e, ValueError)]. *)
Definition is_ValueError (e : exn) : bool :=
  match exn_cls e with
  | RequestsJSONDecodeError | JSONDecodeError | ValueError => true
  | _ => false
  end.

(** ** Wall-clock time *)

Record datetime : Type := Datetime {
  year : nat; month : nat; day : nat;
  hour : nat; minute : nat; second : nat; microsecond : nat
}.

Definition digit_char (n : nat) : string :=
  match n with
  | 0%nat => "0" | 1%nat => "1" | 2%nat => "2" | 3%nat => "3" | 4%nat => "4"
  | 5%nat => "5" | 6%nat => "6" | 7%nat => "7" | 8%nat => "8" | _ => "9"
  end.

(** The [width] low decimal digits of [n], most significant first:
    the [%0<width>d] of a number that fits. *)
Fixpoint zero_padded (width n : nat) : string :=
  match width with
  | O => ""
  | S w => zero_padded w (n / 10)%nat +:+ digit_char (n mod 10)%nat
  end.

(** [datetime.isoformat()]: the fraction is printed only when the
    microsecond is not zero. *)
Definition isoformat (t : datetime) : string :=
  zero_padded 4 (year t) +:+ "-" +:+ zero_padded 2 (month t) +:+ "-" +:+
  zero_padded 2 (day t) +:+ "T" +:+ zero_padded 2 (hour t) +:+ ":" +:+
  zero_padded 2 (minute t) +:+ ":" +:+ zero_padded 2 (second t) +:+
  (if (microsecond t =? 0)%nat then ""
   else "." +:+ zero_padded 6 (microsecond t)).

(** [datetime.strftime("%Y%m%d_%H%M%S")]. *)
Definition strftime_Ymd_HMS (t : datetime) : string :=
  zero_padded 4 (year t) +:+ zero_padded 2 (month t) +:+
  zero_padded 2 (day t) +:+ "_" +:+ zero_padded 2 (hour t) +:+
  zero_padded 2 (minute t) +:+ zero_padded 2 (second t).

(** ** Paths *)

(** [os.path.join(a, b)] on POSIX. *)
Definition os_path_join (a b : string) : string :=
  if String.prefix "/" b then b
  else if String.eqb a "" then b
  else if String.prefix "/" (String.string_of_list_ascii (rev (String.list_ascii_of_string a)))
       then a +:+ b
  else a +:+ "/" +:+ b.

(** Drops the characters after the last slash ([p[:p.rfind('/') + 1]]),
    working on the reversed path. *)
Fixpoint drop_basename_rev (r : list Ascii.ascii) : list Ascii.ascii :=
  match r with
  | [] => []
  | c :: r' => if Ascii.eqb c "/"%char then r else drop_basename_rev r'
  end.

Fixpoint strip_slashes_rev (r : list Ascii.ascii) : list Ascii.ascii :=
  match r with
  | [] => []
  | c :: r' => if Ascii.eqb c "/"%char then strip_slashes_rev r' else r
  end.

(** [os.path.dirname(p)] on POSIX: the head up to the last slash, its
    trailing slashes stripped unless it consists of slashes only. *)
Definition os_path_dirname (p : string) : string :=
  let head := drop_basename_rev (rev (String.list_ascii_of_string p)) in
  match strip_slashes_rev head with
  | [] => String.string_of_list_ascii (rev head)
  | stripped => String.string_of_list_ascii (rev stripped)
  end.

(** ** Rows and frames *)

(** A processed coin: a Python dict literal, kept as the list of its
    items in the order they are written, which is the column order of
    the frame built from it. *)
Definition row : Type := list (string * json).

Fixpoint row_get (r : row) (column : string) : option json :=
  match r with
  | [] => None
  | (k, v) :: r' => if String.eqb k column then Some v else row_get r' column
  end.

(** A frame, by its column labels and the records it holds, which
    are the records handed to its constructor.  The model does not
    compute what pandas then stores in the cells: pandas keeps each
    column under one dtype, so that a cell may hold a converted value
    (an int beside a float or beside a missing value becomes a float,
    a missing number becomes NaN); a column of strings is stored as
    given.  The labels, the number of rows and their order do not
    depend on it. *)
Record DataFrame : Type := Frame {
  df_columns : list string;
  df_records : list row
}.

(** [pd.DataFrame(data)] for a list of dicts that all have the same
    keys in the same order (all dicts built by [process_market_data]
    do): the labels are those keys and the records are [data], from
    which pandas fills the cells (see [DataFrame]); [pd.DataFrame()]
    and [pd.DataFrame([])] have no column and no row. *)
Definition pd_DataFrame (data : list row) : DataFrame :=
  Frame (match data with [] => [] | r :: _ => map fst r end) data.

(** [df.empty]: some axis has length zero. *)
Definition df_empty (df : DataFrame) : bool :=
  match df_columns df, df_records df with
  | [], _ | _, [] => true
  | _, _ => false
  end.

(** [len(df)]. *)
Definition df_len (df : DataFrame) : nat := length (df_records df).

(** ** Configuration *)

(** The [logging] section of the configuration file; each of its
    keys may be absent. *)
Record LogConfig : Type := {
  log_file : option string;
  log_level : option string;
  log_format : option string
}.

(** The parsed [config/config.yaml], with the keys the code reads.  A
    key that is absent is [None]: subscripting it raises [KeyError]. *)
Record Config : Type := {
  cfg_base_url : option string;
  cfg_timeout : option Z;
  cfg_rate_limit_per_minute : option Z;
  cfg_market_data_endpoint : option string;
  cfg_tracked_coins : option (list string);
  cfg_logging : option LogConfig
}.

(** The attributes of a [CryptoDataFetcher] set by [__init__]. *)
Record CryptoDataFetcher : Type := {
  config : Config;
  base_url : string;
  timeout : Z;
  tracked_coins : list string
}.

(** ** Observable effects *)

Inductive level : Type := INFO | WARNING | ERROR.

(** The pieces of an f-string: literal text and the formatted values. *)
Inductive fragment : Type :=
  | Txt (s : string)
  | Num (n : nat)
  | Val (v : json)
  | Err (e : exn).

(** An event records a call, whether it returns or raises. *)
Inductive Event : Type :=
  | EvLog (lvl : level) (message : list fragment)
  | EvHttpGet (url : string) (params : list (string * string)) (tmo : Z)
  | EvSleep (numerator denominator : Z)
      (* [time.sleep(numerator / denominator)], in seconds *)
  | EvMakedirs (path : string)
  | EvToCsv (path : string) (df : DataFrame)
  | EvOpenLog (path : string)
      (* [logging.FileHandler(path)]: the log file is opened for
         appending, which creates it when it does not exist *)
  | EvPrint (message : list fragment).

(** The calls that create a directory or write a data file.  What
    goes to the log file (its opening by [EvOpenLog], the records of
    [EvLog], which the configured [FileHandler] appends to it) is not
    counted here. *)
Definition is_fs_write (ev : Event) : bool :=
  match ev with
  | EvMakedirs _ | EvToCsv _ _ => true
  | _ => false
  end.

Definition is_sleep (ev : Event) : bool :=
  match ev with
  | EvSleep _ _ => true
  | _ => false
  end.

Record World : Type := {
  ticks : nat;             (* clock readings taken so far *)
  trace : list Event       (* effects so far, oldest first *)
}.

(** ** The outside world *)

Record Response : Type := {
  status_code : Z;
  reason : string;
  body : exn + json        (* what [response.json()] raises or returns *)
}.

(** What opening and parsing the configuration file does. *)
Inductive ConfigFile : Type :=
  | ConfigMissing                   (* [open] raises [FileNotFoundError] *)
  | ConfigYamlError (detail : string)  (* [yaml.safe_load] raises [YAMLError] *)
  | ConfigUnreadable (e : exn)      (* any other exception *)
  | ConfigParsed (c : Config).

Record Env : Type := {
  now : nat -> datetime;
    (* the n-th reading of [datetime.now()] *)
  requests_get : string -> list (string * string) -> Z -> exn + Response;
  os_makedirs : string -> option exn;
    (* [os.makedirs(path, exist_ok=True)]: the exception it raises *)
  to_csv : string -> DataFrame -> option exn;
  read_config : string -> ConfigFile;
  logging_getattr : string -> option exn;
    (* [getattr(logging, name)]: the exception it raises *)
  logging_FileHandler : string -> option exn;
    (* [logging.FileHandler(path)]: the exception it raises *)
  logging_basicConfig : string -> string -> option exn
    (* [logging.basicConfig] with the level of that name, that format
       and the two handlers: the exception it raises *)
}.

(** ** The monad of the methods *)

Inductive outcome (A : Type) : Type :=
  | Ret (a : A)
  | Raise (e : exn).
Arguments Ret {A} a.
Arguments Raise {A} e.

Definition M (A : Type) : Type := Env -> World -> outcome A * World.

Definition ret {A} (a : A) : M A := fun _ w => (Ret a, w).

Definition raise {A} (e : exn) : M A := fun _ w => (Raise e, w).

Definition bind {A B} (m : M A) (k : A -> M B) : M B :=
  fun env w =>
    match m env w with
    | (Ret a, w') => k a env w'
    | (Raise e, w') => (Raise e, w')
    end.

Declare Scope py_scope.
Delimit Scope py_scope with py.
Notation "x <- m ;; k" := (bind m (fun x => k))
  (at level 100, m at next level, right associativity) : py_scope.
Notation "m ;;; k" := (bind m (fun _ => k))
  (at level 100, right associativity) : py_scope.
Local Open Scope py_scope.

(** [try: body except Exception as e: handler(e)]: every exception of
    the model is an [Exception]. *)
Definition try_except {A} (body : M A) (handler : exn -> M A) : M A :=
  fun env w =>
    match body env w with
    | (Ret a, w') => (Ret a, w')
    | (Raise e, w') => handler e env w'
    end.

Definition emit (ev : Event) : M unit :=
  fun _ w => (Ret tt, {| ticks := ticks w; trace := trace w ++ [ev] |}).

(** [self.logger.<lvl>(message)]. *)
Definition logger (lvl : level) (message : list fragment) : M unit :=
  emit (EvLog lvl message).

Definition print (message : list fragment) : M unit :=
  emit (EvPrint message).

(** [datetime.now()]. *)
Definition datetime_now : M datetime :=
  fun env w => (Ret (now env (ticks w)),
                {| ticks := S (ticks w); trace := trace w |}).

(** [d[key]] on the configuration: [KeyError] when absent. *)
Definition subscript {A} (key : string) (v : option A) : M A :=
  match v with
  | Some a => ret a
  | None => raise (Exn KeyError key)
  end.

(** Calls an operation of the outside world that may raise. *)
Definition call (ev : Event) (raised : option exn) : M unit :=
  emit ev ;;;
  match raised with
  | Some e => raise e
  | None => ret tt
  end.

(** The magnitude from which [60 / rate] is no longer a float
    different from zero: the quotient of two ints is rounded to the
    nearest double, the smallest positive double is [2 ^ -1074], and a
    quotient of magnitude at most [2 ^ -1075] rounds to zero (to
    [-0.0] when [rate] is negative). *)
Definition float_underflow_bound : Z := 60 * 2 ^ 1075.

(** [time.sleep] refuses its argument [60 / rate], with [ValueError],
    when that float is less than zero: [rate] is negative and the
    quotient has not underflowed to [-0.0], which is not less than
    zero. *)
Definition sleep_refused (rate : Z) : bool :=
  (rate <? 0) && (Z.abs rate <? float_underflow_bound).

(** [time.sleep(60 / rate)]: the division raises on zero and
    [time.sleep] refuses a negative length with [ValueError]. *)
Definition sleep_60_over (rate : Z) : M unit :=
  if rate =? 0 then raise (Exn ZeroDivisionError "division by zero")
  else if sleep_refused rate
       then raise (Exn ValueError "sleep length must be non-negative")
  else emit (EvSleep 60 rate).

(** [response.raise_for_status()]: client and server error codes. *)
Definition raise_for_status (response : Response) : M unit :=
  if (400 <=? status_code response) && (status_code response <? 600)
  then raise (Exn (HTTPError (status_code response)) (reason response))
  else ret tt.

(** ** class CryptoDataFetcher *)

Definition _load_config (config_path : string) : M Config :=
  fun env w =>
    match read_config env config_path with
    | ConfigParsed c => (Ret c, w)
    | ConfigMissing =>
        (Raise (Exn FileNotFoundError
                  ("Configuration file not found: " +:+ config_path)), w)
    | ConfigYamlError detail =>
        (Raise (Exn ValueError
                  ("Error parsing configuration file: " +:+ detail)), w)
    | ConfigUnreadable e => (Raise e, w)
    end.

(** The items of the call are evaluated in the order written: the
    directory of the log file is created first; then come the level
    (its key, its name looked up in the [logging] module), the format
    (its key) and the handlers, of which [FileHandler] opens the log
    file; [basicConfig] itself, which checks the format and the level,
    runs last. *)
Definition _setup_logging (cfg : Config) : M unit :=
  log_config <- subscript "logging" (cfg_logging cfg) ;;
  file <- subscript "file" (log_file log_config) ;;
  (fun env => call (EvMakedirs (os_path_dirname file))
                   (os_makedirs env (os_path_dirname file)) env) ;;;
  level_name <- subscript "level" (log_level log_config) ;;
  (fun env w => match logging_getattr env level_name with
                | Some e => (Raise e, w)
                | None => (Ret tt, w)
                end) ;;;
  format <- subscript "format" (log_format log_config) ;;
  file_again <- subscript "file" (log_file log_config) ;;
  (fun env => call (EvOpenLog file_again) (logging_FileHandler env file_again) env) ;;;
  (fun env w => match logging_basicConfig env level_name format with
                | Some e => (Raise e, w)
                | None => (Ret tt, w)
                end).

Definition __init__ (config_path : string) : M CryptoDataFetcher :=
  cfg <- _load_config config_path ;;
  _setup_logging cfg ;;;
  url <- subscript "base_url" (cfg_base_url cfg) ;;
  tmo <- subscript "timeout" (cfg_timeout cfg) ;;
  coins <- subscript "tracked_coins" (cfg_tracked_coins cfg) ;;
  ret {| config := cfg; base_url := url; timeout := tmo; tracked_coins := coins |}.

(** The two [except] clauses of [_make_api_request], tried in order;
    an exception of neither class propagates. *)
Definition _make_api_request_handler (url : string) (e : exn) : M json :=
  if is_RequestException e then
    logger ERROR [Txt "API request failed for "; Txt url; Txt ": "; Err e] ;;;
    ret JNull
  else if is_ValueError e then
    logger ERROR [Txt "JSON parsing failed for "; Txt url; Txt ": "; Err e] ;;;
    ret JNull
  else raise e.

Definition _make_api_request (self : CryptoDataFetcher) (endpoint : string)
    (params : list (string * string)) : M json :=
  let url := base_url self +:+ endpoint in
  try_except
    (logger INFO [Txt "Making API request to: "; Txt url] ;;;
     response <- (fun env w =>
                    match requests_get env url params (timeout self) with
                    | inl e => bind (emit (EvHttpGet url params (timeout self)))
                                    (fun _ => raise e) env w
                    | inr r => bind (emit (EvHttpGet url params (timeout self)))
                                    (fun _ => ret r) env w
                    end) ;;
     raise_for_status response ;;;
     rate <- subscript "rate_limit_per_minute"
               (cfg_rate_limit_per_minute (config self)) ;;
     sleep_60_over rate ;;;
     match body response with
     | inl e => raise e
     | inr v => ret v
     end)
    (_make_api_request_handler url).

Definition fetch_market_data (self : CryptoDataFetcher) : M json :=
  endpoint <- subscript "market_data" (cfg_market_data_endpoint (config self)) ;;
  let coins_string := String.concat "," (tracked_coins self) in
  let params :=
    [ ("ids", coins_string);
      ("vs_currency", "usd");
      ("include_market_cap", "true");
      ("include_24hr_vol", "true");
      ("include_24hr_change", "true");
      ("include_last_updated_at", "true") ] in
  logger INFO [Txt "Fetching market data for ";
               Num (length (tracked_coins self));
               Txt " cryptocurrencies"] ;;;
  _make_api_request self endpoint params.

(** [type(v).__name__]. *)
Definition type_name (v : json) : string :=
  match v with
  | JNull => "NoneType"
  | JBool _ => "bool"
  | JInt _ => "int"
  | JFloat _ _ => "float"
  | JStr _ => "str"
  | JArr _ => "list"
  | JObj _ => "dict"
  end.

(** [coin.get(key)] on any value: only a dict has the method. *)
Definition method_get (coin : json) (key : string) : M json :=
  match coin with
  | JObj d => ret (dict_get d key)
  | _ => raise (Exn AttributeError
                  ("'" +:+ type_name coin +:+ "' object has no attribute 'get'"))
  end.

(** [coin.get(key, dflt)] on any value. *)
Definition method_get_default (coin : json) (key : string) (dflt : json) : M json :=
  match coin with
  | JObj d => ret (dict_get_default d key dflt)
  | _ => raise (Exn AttributeError
                  ("'" +:+ type_name coin +:+ "' object has no attribute 'get'"))
  end.

(** The values that [for coin in raw_data] goes through: the items of a
    list, the characters of a string, the keys of a dict (every key
    is a string, so the order in which they come changes nothing in
    what the loop body does); any other value is not iterable. *)
Definition py_iter (v : json) : M (list json) :=
  match v with
  | JArr items => ret items
  | JStr s => ret (map (fun c => JStr (String c EmptyString)) (String.list_ascii_of_string s))
  | JObj d => ret (map (fun kv => JStr (fst kv)) (map_to_list d))
  | _ => raise (Exn TypeError ("'" +:+ type_name v +:+ "' object is not iterable"))
  end.

(** The dict literal of [process_market_data]; its items are evaluated
    in the order written, the clock first. *)
Definition processed_coin (coin : json) : M row :=
  timestamp <- datetime_now ;;
  coin_id <- method_get coin "id" ;;
  symbol <- method_get coin "symbol" ;;
  name <- method_get coin "name" ;;
  current_price <- method_get coin "current_price" ;;
  market_cap <- method_get coin "market_cap" ;;
  market_cap_rank <- method_get coin "market_cap_rank" ;;
  total_volume <- method_get coin "total_volume" ;;
  price_change_24h <- method_get coin "price_change_24h" ;;
  price_change_percentage_24h <- method_get coin "price_change_percentage_24h" ;;
  market_cap_change_24h <- method_get coin "market_cap_change_24h" ;;
  market_cap_change_percentage_24h <-
    method_get coin "market_cap_change_percentage_24h" ;;
  circulating_supply <- method_get coin "circulating_supply" ;;
  total_supply <- method_get coin "total_supply" ;;
  max_supply <- method_get coin "max_supply" ;;
  last_updated <- method_get coin "last_updated" ;;
  ret [ ("timestamp", JStr (isoformat timestamp));
        ("coin_id", coin_id);
        ("symbol", symbol);
        ("name", name);
        ("current_price", current_price);
        ("market_cap", market_cap);
        ("market_cap_rank", market_cap_rank);
        ("total_volume", total_volume);
        ("price_change_24h", price_change_24h);
        ("price_change_percentage_24h", price_change_percentage_24h);
        ("market_cap_change_24h", market_cap_change_24h);
        ("market_cap_change_percentage_24h", market_cap_change_percentage_24h);
        ("circulating_supply", circulating_supply);
        ("total_supply", total_supply);
        ("max_supply", max_supply);
        ("last_updated", last_updated) ].

(** The [for] loop of [process_market_data]: [processed_data] is the
    list built so far; the handler formats its message, which calls
    [coin.get] again, before it logs and continues. *)
Fixpoint process_coins (coins : list json) (processed_data : list row)
    : M (list row) :=
  match coins with
  | [] => ret processed_data
  | coin :: rest =>
      processed_data' <-
        try_except
          (processed <- processed_coin coin ;;
           ret (processed_data ++ [processed]))
          (fun e =>
             coin_id <- method_get_default coin "id" (JStr "unknown") ;;
             logger ERROR [Txt "Error processing coin data for "; Val coin_id;
                           Txt ": "; Err e] ;;;
             ret processed_data) ;;
      process_coins rest processed_data'
  end.

Definition process_market_data (self : CryptoDataFetcher) (raw_data : json)
    : M DataFrame :=
  if negb (truthy raw_data) then
    logger WARNING [Txt "No market data to process"] ;;;
    ret (pd_DataFrame [])
  else
    coins <- py_iter raw_data ;;
    processed_data <- process_coins coins [] ;;
    let df := pd_DataFrame processed_data in
    logger INFO [Txt "Processed data for "; Num (df_len df);
                 Txt " cryptocurrencies"] ;;;
    ret df.

Definition save_to_csv (self : CryptoDataFetcher) (df : DataFrame) : M string :=
  if df_empty df then
    logger WARNING [Txt "No data to save"] ;;;
    ret ""
  else
    t <- datetime_now ;;
    let timestamp := strftime_Ymd_HMS t in
    let filename := "crypto_market_data_" +:+ timestamp +:+ ".csv" in
    let filepath := os_path_join (os_path_join "data" "raw") filename in
    try_except
      ((fun env => call (EvMakedirs (os_path_dirname filepath))
                        (os_makedirs env (os_path_dirname filepath)) env) ;;;
       (fun env => call (EvToCsv filepath df) (to_csv env filepath df) env) ;;;
       logger INFO [Txt "Data saved to "; Txt filepath] ;;;
       ret filepath)
      (fun e =>
         logger ERROR [Txt "Error saving data to CSV: "; Err e] ;;;
         ret "").

Definition fetch_and_save_data (self : CryptoDataFetcher) : M bool :=
  try_except
    (logger INFO [Txt "Starting crypto data fetch and save process"] ;;;
     raw_data <- fetch_market_data self ;;
     if negb (truthy raw_data) then
       logger ERROR [Txt "Failed to fetch market data"] ;;;
       ret false
     else
       df <- process_market_data self raw_data ;;
       if df_empty df then
         logger ERROR [Txt "No data was processed"] ;;;
         ret false
       else
         filepath <- save_to_csv self df ;;
         if String.eqb filepath "" then
           logger ERROR [Txt "Failed to save data"] ;;;
           ret false
         else
           logger INFO [Txt "Successfully completed data fetch and save. File: ";
                        Txt filepath] ;;;
           ret true)
    (fun e =>
       logger ERROR [Txt "Unexpected error in fetch_and_save_data: "; Err e] ;;;
       ret false).

(** ** The entry point *)

Definition main : M unit :=
  try_except
    (fetcher <- __init__ "config/config.yaml" ;;
     success <- fetch_and_save_data fetcher ;;
     if (success : bool) then
       print [Txt "Crypto data fetch completed successfully!"]
     else
       print [Txt "Crypto data fetch failed. Check logs for details."])
    (fun e => print [Txt "Error initializing crypto data fetcher: "; Err e]).

(** [if __name__ == "__main__": main()]: the interpreter exits with
    status 0 when the module body returns and with status 1 when an
    exception reaches the top level; the code calls no [sys.exit]. *)
Definition exit_status (env : Env) (w : World) : Z :=
  match main env w with
  | (Ret _, _) => 0
  | (Raise _, _) => 1
  end.

(** ** Reading a run off its trace *)

Inductive stage : Type := StageFetch | StageNormalize | StagePersist.

(** The stage that an error record of [fetch_and_save_data] names. *)
Definition reported_stage (ev : Event) : option stage :=
  match ev with
  | EvLog ERROR [Txt msg] =>
      if String.eqb msg "Failed to fetch market data" then Some StageFetch
      else if String.eqb msg "No data was processed" then Some StageNormalize
      else if String.eqb msg "Failed to save data" then Some StagePersist
      else None
  | _ => None
  end.

(** The stages that a trace reports as failed, oldest first. *)
Definition reported_failures (tr : list Event) : list stage :=
  omap reported_stage tr.

(** The [timestamp] values of the rows of a frame; they are strings,
    which the frame stores as given. *)
Definition timestamps (df : DataFrame) : list (option json) :=
  map (fun r => row_get r "timestamp") (df_records df).

(** ** Sample worlds *)

(** A clock that advances by one microsecond at every reading. *)
Definition ticking_clock (n : nat) : datetime :=
  Datetime 2025 1 15 12 30 45 n.

Definition sample_config : Config := {|
  cfg_base_url := Some "https://api.coingecko.com/api/v3";
  cfg_timeout := Some 30;
  cfg_rate_limit_per_minute := Some 50;
  cfg_market_data_endpoint := Some "/coins/markets";
  cfg_tracked_coins := Some ["bitcoin"; "ethereum"];
  cfg_logging := Some {| log_file := Some "logs/crypto_fetch.log";
                         log_level := Some "INFO";
                         log_format := Some "%(message)s" |}
|}.

Definition sample_fetcher : CryptoDataFetcher := {|
  config := sample_config;
  base_url := "https://api.coingecko.com/api/v3";
  timeout := 30;
  tracked_coins := ["bitcoin"; "ethereum"]
|}.

(** A world whose HTTP server answers every request with [answer] and
    whose file system and configuration file are in order. *)
Definition env_answering (answer : exn + Response) : Env := {|
  now := ticking_clock;
  requests_get := fun _ _ _ => answer;
  os_makedirs := fun _ => None;
  to_csv := fun _ _ => None;
  read_config := fun _ => ConfigParsed sample_config;
  logging_getattr := fun _ => None;
  logging_FileHandler := fun _ => None;
  logging_basicConfig := fun _ _ => None
|}.

Definition ok_response (v : json) : exn + Response :=
  inr {| status_code := 200; reason := "OK"; body := inr v |}.

Definition bitcoin : gmap string json :=
  <["id" := JStr "bitcoin"]>
    (<["symbol" := JStr "btc"]>
       (<["current_price" := JInt 43000]> ∅)).

Definition ethereum : gmap string json :=
  <["id" := JStr "ethereum"]>
    (<["symbol" := JStr "eth"]>
       (<["current_price" := JFloat 22505 (-1)]> ∅)).

Definition initial_world : World := {| ticks := 0; trace := [] |}.

(** ** The pure content of the normalizer *)

(** The fifteen columns copied from the record and the key each one is
    read from, in the order of the dict literal. *)
Definition source_fields : list (string * string) :=
  [ ("coin_id", "id");
    ("symbol", "symbol");
    ("name", "name");
    ("current_price", "current_price");
    ("market_cap", "market_cap");
    ("market_cap_rank", "market_cap_rank");
    ("total_volume", "total_volume");
    ("price_change_24h", "price_change_24h");
    ("price_change_percentage_24h", "price_change_percentage_24h");
    ("market_cap_change_24h", "market_cap_change_24h");
    ("market_cap_change_percentage_24h", "market_cap_change_percentage_24h");
    ("circulating_supply", "circulating_supply");
    ("total_supply", "total_supply");
    ("max_supply", "max_supply");
    ("last_updated", "last_updated") ].

(** The row that [processed_coin] builds from a dict at clock reading
    [t]. *)
Definition normalized_row (t : datetime) (d : gmap string json) : row :=
  ("timestamp", JStr (isoformat t))
  :: map (fun ck => (fst ck, dict_get d (snd ck))) source_fields.

(** The rows built from a list of dicts when the first one is processed
    at the clock reading number [n]. *)
Fixpoint rows_from (env : Env) (n : nat) (ds : list (gmap string json)) : list row :=
  match ds with
  | [] => []
  | d :: ds' => normalized_row (now env n) d :: rows_from env (S n) ds'
  end.

Definition is_dict (v : json) : bool :=
  match v with
  | JObj _ => true
  | _ => false
  end.

(** The events that a run adds to the trace of the world it starts in. *)
Definition new_events (w w' : World) : list Event :=
  drop (length (trace w)) (trace w').

Definition tick (w : World) : World :=
  {| ticks := S (ticks w); trace := trace w |}.

Definition record (ev : Event) (w : World) : World :=
  {| ticks := ticks w; trace := trace w ++ [ev] |}.

(** One value is the [timestamp] of every row of the frame. *)
Definition shares_one_timestamp (df : DataFrame) : Prop :=
  exists ts : json, Forall (fun r => row_get r "timestamp" = Some ts) (df_records df).



Definition connection_refused : exn + Response :=
  inl (Exn ConnectionError "Connection refused").

Definition server_error : exn + Response :=
  inr {| status_code := 500; reason := "Internal Server Error";
         body := inr JNull |}.

Definition undecodable_body : exn + Response :=
  inr {| status_code := 200; reason := "OK";
         body := inl (Exn JSONDecodeError "Expecting value: line 1 column 1 (char 0)") |}.

(** The path [save_to_csv] writes to when the clock reads [t]. *)
Definition artifact_path (t : datetime) : string :=
  os_path_join (os_path_join "data" "raw")
    ("crypto_market_data_" +:+ strftime_Ymd_HMS t +:+ ".csv").

(** An event that neither writes to the file system nor reports a
    failed stage. *)
Definition quiet (ev : Event) : Prop :=
  is_fs_write ev = false /\ reported_stage ev = None.

(** A world like [env_answering answer] whose disk is full: writing
    the CSV file raises. *)
Definition env_disk_full (answer : exn + Response) : Env := {|
  now := ticking_clock;
  requests_get := fun _ _ _ => answer;
  os_makedirs := fun _ => None;
  to_csv := fun _ _ => Some (Exn OSError "[Errno 28] No space left on device");
  read_config := fun _ => ConfigParsed sample_config;
  logging_getattr := fun _ => None;
  logging_FileHandler := fun _ => None;
  logging_basicConfig := fun _ _ => None
|}.

(** A world without its configuration file. *)
Definition env_without_config : Env := {|
  now := ticking_clock;
  requests_get := fun _ _ _ => connection_refused;
  os_makedirs := fun _ => None;
  to_csv := fun _ _ => None;
  read_config := fun _ => ConfigMissing;
  logging_getattr := fun _ => None;
  logging_FileHandler := fun _ => None;
  logging_basicConfig := fun _ _ => None
|}.

Definition starting : Event :=
  EvLog INFO [Txt "Starting crypto data fetch and save process"].

(** A run in which the server answers with two well-formed records and
    the disk is full: the answer, the world after the fetch, the frame
    and the world after normalization. *)
Definition two_coins : json := JArr [JObj bitcoin; JObj ethereum].

Definition disk_full : Env := env_disk_full (ok_response two_coins).

Definition fetched_world : World :=
  snd (fetch_market_data sample_fetcher disk_full (record starting initial_world)).

Definition two_rows : DataFrame :=
  pd_DataFrame (rows_from disk_full 0 [bitcoin; ethereum]).

Definition normalized_world : World :=
  snd (process_market_data sample_fetcher two_coins disk_full fetched_world).

(** Runs the monadic plumbing of a goal. *)
Ltac run_monad :=
  repeat (progress (unfold try_except, bind, logger, print, call, emit, raise, ret,
                      subscript, raise_for_status, sleep_60_over,
                      _make_api_request_handler;
                    cbn [fst snd trace ticks andb])).

(** ** Further readings of a trace *)

Definition is_http_get (ev : Event) : bool :=
  match ev with
  | EvHttpGet _ _ _ => true
  | _ => false
  end.

Definition is_print (ev : Event) : bool :=
  match ev with
  | EvPrint _ => true
  | _ => false
  end.

(** The query parameters that [fetch_market_data] sends. *)
Definition market_data_params (self : CryptoDataFetcher) : list (string * string) :=
  [ ("ids", String.concat "," (tracked_coins self));
    ("vs_currency", "usd");
    ("include_market_cap", "true");
    ("include_24hr_vol", "true");
    ("include_24hr_change", "true");
    ("include_last_updated_at", "true") ].

(** [expected_columns] of [CryptoDataFetcherTest] in
    [test_crypto_fetch.py]. *)
Definition expected_columns : list string :=
  [ "timestamp"; "coin_id"; "symbol"; "name"; "current_price";
    "market_cap"; "market_cap_rank"; "total_volume"; "price_change_24h";
    "price_change_percentage_24h"; "market_cap_change_24h";
    "market_cap_change_percentage_24h"; "circulating_supply";
    "total_supply"; "max_supply"; "last_updated" ].

(** The column check of [test_data_validation]:
    [set(self.expected_columns) - set(df.columns)] and the converse. *)
Definition missing_columns (df : DataFrame) : gset string :=
  list_to_set expected_columns ∖ list_to_set (df_columns df).

Definition extra_columns (df : DataFrame) : gset string :=
  list_to_set (df_columns df) ∖ list_to_set expected_columns.

(** Fetchers over configurations that differ from the sample one in a
    single key. *)
Definition fetcher_with (c : Config) : CryptoDataFetcher := {|
  config := c;
  base_url := "https://api.coingecko.com/api/v3";
  timeout := 30;
  tracked_coins := ["bitcoin"; "ethereum"]
|}.

Definition config_with_rate (rate : option Z) : Config := {|
  cfg_base_url := Some "https://api.coingecko.com/api/v3";
  cfg_timeout := Some 30;
  cfg_rate_limit_per_minute := rate;
  cfg_market_data_endpoint := Some "/coins/markets";
  cfg_tracked_coins := Some ["bitcoin"; "ethereum"];
  cfg_logging := Some {| log_file := Some "logs/crypto_fetch.log";
                         log_level := Some "INFO";
                         log_format := Some "%(message)s" |}
|}.

Definition config_without_endpoint : Config := {|
  cfg_base_url := Some "https://api.coingecko.com/api/v3";
  cfg_timeout := Some 30;
  cfg_rate_limit_per_minute := Some 50;
  cfg_market_data_endpoint := None;
  cfg_tracked_coins := Some ["bitcoin"; "ethereum"];
  cfg_logging := Some {| log_file := Some "logs/crypto_fetch.log";
                         log_level := Some "INFO";
                         log_format := Some "%(message)s" |}
|}.

(** No character of the string is a slash. *)
Definition no_slash (s : string) : Prop :=
  Forall (fun c => Ascii.eqb c "/"%char = false) (String.list_ascii_of_string s).

(** The shapes of a run of [fetch_and_save_data], read off its result
    and the events it added: it stopped before saving; it could not
    create the directory; it could not write the file; it saved the
    frame. *)
Inductive run_shape (env : Env) : outcome bool -> list Event -> Prop :=
  | run_stopped (evs : list Event) :
      filter is_fs_write evs = [] ->
      reported_failures evs = [] \/ reported_failures evs = [StageFetch] ->
      run_shape env (Ret false) evs
  | run_no_directory (evs : list Event) :
      os_makedirs env "data/raw" <> None ->
      filter is_fs_write evs = [EvMakedirs "data/raw"] ->
      reported_failures evs = [StagePersist] ->
      run_shape env (Ret false) evs
  | run_no_file (t : datetime) (df : DataFrame) (evs : list Event) :
      df_empty df = false ->
      to_csv env (artifact_path t) df <> None ->
      filter is_fs_write evs
      = [EvMakedirs "data/raw"; EvToCsv (artifact_path t) df] ->
      reported_failures evs = [StagePersist] ->
      run_shape env (Ret false) evs
  | run_saved (t : datetime) (df : DataFrame) (evs : list Event) :
      df_empty df = false ->
      os_makedirs env "data/raw" = None ->
      to_csv env (artifact_path t) df = None ->
      filter is_fs_write evs
      = [EvMakedirs "data/raw"; EvToCsv (artifact_path t) df] ->
      reported_failures evs = [] ->
      run_shape env (Ret true) evs.

(** The events that a run of the orchestrator adds to the trace. *)
Definition run_events (self : CryptoDataFetcher) (env : Env) (w : World)
    : list Event :=
  new_events w (snd (fetch_and_save_data self env w)).

(** Closes a goal [x ∉ l] for a list [l] of constructors other than
    [x]. *)
Ltac stage_not_listed :=
  let Hin := fresh "Hin" in
  intros Hin;
  repeat (apply elem_of_cons in Hin as [Hin|Hin]; [discriminate Hin|]);
  by apply elem_of_nil in Hin.

(** A world whose server answers with the two sample records. *)
Definition good_day : Env := env_answering (ok_response two_coins).

Definition good_response : Response :=
  {| status_code := 200; reason := "OK"; body := inr two_coins |}.

(** The events that setting up logging can add: none, the creation of
    the log directory, or that creation followed by the opening of the
    log file. *)
Definition setup_events (evs : list Event) : Prop :=
  evs = []
  \/ exists file : string,
       evs = [EvMakedirs (os_path_dirname file)]
       \/ evs = [EvMakedirs (os_path_dirname file); EvOpenLog file].

(** Closes a goal about the events of a run of [__init__] that has
    come to its end. *)
Ltac init_stops :=
  first [ exists []; split; [by rewrite app_nil_r | by left]
        | rewrite <- ?app_assoc; eexists; split;
          [reflexivity | right; eexists; eauto] ].

(** * Properties *)

Lemma returned_eq {A : Type} (a b : A) (w w' : World) :
  (Ret a, w) = (Ret b, w') -> a = b /\ w = w'.
Proof. intros H. by injection H. Qed.

Section Normalizer.

Variable self : CryptoDataFetcher.
Variable env : Env.

Lemma processed_coin_dict (d : gmap string json) (w : World) :
  processed_coin (JObj d) env w
  = (Ret (normalized_row (now env (ticks w)) d), tick w).
Proof. reflexivity. Qed.

Lemma processed_coin_not_dict (coin : json) (w : World) :
  is_dict coin = false ->
  processed_coin coin env w
  = (Raise (Exn AttributeError
              ("'" +:+ type_name coin +:+ "' object has no attribute 'get'")),
     tick w).
Proof. destruct coin; intros H; try discriminate H; reflexivity. Qed.

(** One turn of the loop on a dict appends its row. *)
Lemma process_coins_dict (d : gmap string json) (rest : list json)
    (acc : list row) (w : World) :
  process_coins (JObj d :: rest) acc env w
  = process_coins rest (acc ++ [normalized_row (now env (ticks w)) d]) env (tick w).
Proof. reflexivity. Qed.

(** One turn of the loop on anything else: the body raises, and so
    does the handler while it formats its message. *)
Lemma process_coins_not_dict (coin : json) (rest : list json)
    (acc : list row) (w : World) :
  is_dict coin = false ->
  process_coins (coin :: rest) acc env w
  = (Raise (Exn AttributeError
              ("'" +:+ type_name coin +:+ "' object has no attribute 'get'")),
     tick w).
Proof. destruct coin; intros H; try discriminate H; reflexivity. Qed.

Lemma process_coins_dicts (ds : list (gmap string json)) :
  forall (acc : list row) (w : World),
    process_coins (JObj <$> ds) acc env w
    = (Ret (acc ++ rows_from env (ticks w) ds),
       {| ticks := (ticks w + length ds)%nat; trace := trace w |}).
Proof.
  induction ds as [|d ds IH]; intros acc w.
  - cbn. rewrite app_nil_r, Nat.add_0_r. by destruct w.
  - rewrite fmap_cons, process_coins_dict, IH. cbn.
    rewrite <- app_assoc, Nat.add_succ_r. reflexivity.
Qed.

(** The loop returns only when every item is a dict. *)
Lemma process_coins_returns (coins : list json) :
  forall (acc rows : list row) (w w' : World),
    process_coins coins acc env w = (Ret rows, w') ->
    exists ds : list (gmap string json), coins = JObj <$> ds.
Proof.
  induction coins as [|coin coins IH]; intros acc rows w w' H.
  - by exists [].
  - destruct (is_dict coin) eqn:E.
    + destruct coin; try discriminate E.
      rewrite process_coins_dict in H.
      destruct (IH _ _ _ _ H) as [ds ->]. by exists (fields :: ds).
    + rewrite (process_coins_not_dict _ _ _ _ E) in H. discriminate H.
Qed.

(** The loop raises [AttributeError] as soon as an item is not a
    dict. *)
Lemma process_coins_raises (coins : list json) :
  forall (acc : list row) (w : World),
    existsb (fun c => negb (is_dict c)) coins = true ->
    exists (msg : string) (w' : World),
      process_coins coins acc env w = (Raise (Exn AttributeError msg), w').
Proof.
  induction coins as [|coin coins IH]; intros acc w H; [discriminate H|].
  destruct (is_dict coin) eqn:E.
  - destruct coin; try discriminate E.
    rewrite process_coins_dict. apply IH. cbn in H. exact H.
  - rewrite (process_coins_not_dict _ _ _ _ E). eauto.
Qed.

Lemma process_market_data_dicts (d : gmap string json)
    (ds : list (gmap string json)) (w : World) :
  process_market_data self (JArr (JObj <$> (d :: ds))) env w
  = (Ret (pd_DataFrame (rows_from env (ticks w) (d :: ds))),
     {| ticks := (ticks w + length (d :: ds))%nat;
        trace := trace w ++ [EvLog INFO [Txt "Processed data for ";
                                         Num (length (d :: ds));
                                         Txt " cryptocurrencies"]] |}).
Proof.
  unfold process_market_data.
  change (truthy (JArr (JObj <$> (d :: ds)))) with true. cbv beta iota delta [negb].
  unfold bind at 1. cbn [py_iter ret].
  unfold bind at 1. rewrite process_coins_dicts.
  cbn [app]. unfold bind, logger, emit, ret, df_len, pd_DataFrame. cbn.
  assert (Hlen : forall n l, length (rows_from env n l) = length l).
  { intros n l; revert n; induction l; intros; cbn; auto. }
  rewrite Hlen. reflexivity.
Qed.

End Normalizer.

Lemma rows_from_length (env : Env) (ds : list (gmap string json)) :
  forall n : nat, length (rows_from env n ds) = length ds.
Proof. induction ds as [|d ds IH]; intros n; cbn; [reflexivity | by rewrite IH]. Qed.

Lemma timestamps_rows_from (env : Env) (ds : list (gmap string json)) :
  forall n : nat,
    timestamps (pd_DataFrame (rows_from env n ds))
    = map (fun i => Some (JStr (isoformat (now env i)))) (seq n (length ds)).
Proof.
  unfold timestamps. cbn [df_records pd_DataFrame].
  induction ds as [|d ds IH]; intros n; cbn; [reflexivity | by rewrite IH].
Qed.

(** Each of the fifteen columns of a row holds what [get] returned for
    its key. *)
Lemma normalized_row_get (t : datetime) (d : gmap string json)
    (col key : string) :
  (col, key) ∈ source_fields ->
  row_get (normalized_row t d) col = Some (dict_get d key).
Proof.
  unfold source_fields. intros H.
  repeat (apply elem_of_cons in H as [H|H];
          [injection H as -> ->; reflexivity|]).
  by apply elem_of_nil in H.
Qed.

(** When normalization returns, its input was falsy (and the frame is
    empty) or a non-empty list of dicts. *)
Lemma process_market_data_returns (self : CryptoDataFetcher) (env : Env)
    (raw_data : json) (w w' : World) (df : DataFrame) :
  process_market_data self raw_data env w = (Ret df, w') ->
  (truthy raw_data = false /\ df = pd_DataFrame []) \/
  (exists d ds, raw_data = JArr (JObj <$> (d :: ds))).
Proof.
  unfold process_market_data. destruct (truthy raw_data) eqn:Ht; cbn [negb].
  - intros H. right. destruct raw_data; try discriminate Ht; try discriminate H.
    + (* a string: its first character is not a dict *)
      destruct s as [|c s]; [discriminate Ht|].
      unfold bind at 1 in H. cbn [py_iter ret String.list_ascii_of_string map] in H.
      unfold bind at 1 in H.
      rewrite process_coins_not_dict in H by reflexivity. discriminate H.
    + (* a list *)
      unfold bind at 1 in H. cbn [py_iter ret] in H. unfold bind at 1 in H.
      destruct (process_coins items [] env w) as [[rows|e] w1] eqn:E;
        [|discriminate H].
      destruct (process_coins_returns env _ _ _ _ _ E) as [ds ->].
      destruct ds as [|d ds]; [discriminate Ht|]. by exists d, ds.
    + (* a dict: its first key is not a dict *)
      unfold bind at 1 in H. cbn [py_iter ret] in H. unfold bind at 1 in H.
      destruct (map_to_list fields) as [|kv kvs] eqn:E.
      * apply map_to_list_empty_iff in E. subst fields. discriminate Ht.
      * cbn [map] in H.
        rewrite process_coins_not_dict in H by reflexivity. discriminate H.
  - intros H. left. split; [reflexivity|].
    unfold bind, logger, emit, ret in H. by apply returned_eq in H as [<- _].
Qed.

(** C1 (amended): every row that normalization produces carries the
    ISO-8601 rendering of its own clock reading, taken when its record
    is processed: the k-th row holds the k-th reading made since
    normalization started.  The rows of a run share one timestamp only
    when these readings render alike. *)
Theorem rows_carry_successive_clock_readings (self : CryptoDataFetcher)
    (env : Env) (raw_data : json) (w w' : World) (df : DataFrame) :
  process_market_data self raw_data env w = (Ret df, w') ->
  timestamps df
  = map (fun n => Some (JStr (isoformat (now env n))))
        (seq (ticks w) (df_len df)).
Proof.
  intros H. destruct (process_market_data_returns _ _ _ _ _ _ H) as [[_ ->]|(d & ds & ->)].
  - reflexivity.
  - rewrite process_market_data_dicts in H.
    apply returned_eq in H as [<- _].
    rewrite timestamps_rows_from. unfold df_len. cbn [df_records pd_DataFrame].
    by rewrite rows_from_length.
Qed.

Lemma rows_carry_successive_clock_readings_witness :
  process_market_data sample_fetcher (JArr [JObj bitcoin; JObj ethereum])
    (env_answering (ok_response JNull)) initial_world
  = (Ret (pd_DataFrame (rows_from (env_answering (ok_response JNull)) 0
                                  [bitcoin; ethereum])),
     {| ticks := 2;
        trace := [EvLog INFO [Txt "Processed data for "; Num 2;
                              Txt " cryptocurrencies"]] |})
  /\ timestamps (pd_DataFrame (rows_from (env_answering (ok_response JNull)) 0
                                         [bitcoin; ethereum]))
     = [Some (JStr "2025-01-15T12:30:45"); Some (JStr "2025-01-15T12:30:45.000001")].
Proof.
  split.
  - vm_compute. reflexivity.
  - apply (rows_carry_successive_clock_readings sample_fetcher
             (env_answering (ok_response JNull))
             (JArr [JObj bitcoin; JObj ethereum]) initial_world
             {| ticks := 2;
                trace := [EvLog INFO [Txt "Processed data for "; Num 2;
                                      Txt " cryptocurrencies"]] |}).
    vm_compute. reflexivity.
Defined.

(** C1 (counterexample): two well-formed records normalized while the
    clock advances get two different timestamps. *)
Lemma rows_do_not_share_one_timestamp :
  exists (df : DataFrame) (w' : World),
    process_market_data sample_fetcher (JArr [JObj bitcoin; JObj ethereum])
      (env_answering (ok_response JNull)) initial_world = (Ret df, w')
    /\ ~ shares_one_timestamp df.
Proof.
  eexists _, _. split; [vm_compute; reflexivity|].
  intros [ts Hall]. cbn [df_records] in Hall.
  apply Forall_cons in Hall as [H1 Hall].
  apply Forall_cons in Hall as [H2 _].
  vm_compute in H1, H2. congruence.
Qed.

(** C2 (the code does otherwise): a record that is not a mapping does
    not get skipped.  The loop body raises [AttributeError] on it, and
    the handler that should log and continue calls [coin.get] on the
    same record while it formats its message, so the exception leaves
    [process_market_data]: no row is returned for any record of the
    list. *)
Theorem non_mapping_record_aborts_normalization (self : CryptoDataFetcher)
    (env : Env) (coins : list json) (w : World) :
  existsb (fun c => negb (is_dict c)) coins = true ->
  exists (msg : string) (w' : World),
    process_market_data self (JArr coins) env w
    = (Raise (Exn AttributeError msg), w').
Proof.
  intros H. unfold process_market_data.
  destruct coins as [|c coins]; [discriminate H|].
  cbn [truthy negb]. unfold bind at 1. cbn [py_iter ret]. unfold bind at 1.
  destruct (process_coins_raises env (c :: coins) [] w H) as (msg & w' & ->).
  eauto.
Qed.

Lemma non_mapping_record_aborts_normalization_witness :
  existsb (fun c => negb (is_dict c)) [JObj bitcoin; JInt 42] = true
  /\ exists (msg : string) (w' : World),
       process_market_data sample_fetcher (JArr [JObj bitcoin; JInt 42])
         (env_answering (ok_response JNull)) initial_world
       = (Raise (Exn AttributeError msg), w').
Proof.
  split.
  - reflexivity.
  - apply (non_mapping_record_aborts_normalization sample_fetcher
             (env_answering (ok_response JNull)) [JObj bitcoin; JInt 42]
             initial_world).
    reflexivity.
Defined.

(** The run on a well-formed record followed by a number: the first
    record is processed, the second raises, nothing is logged and
    nothing is returned. *)
Example bitcoin_then_number_raises :
  process_market_data sample_fetcher (JArr [JObj bitcoin; JInt 42])
    (env_answering (ok_response JNull)) initial_world
  = (Raise (Exn AttributeError "'int' object has no attribute 'get'"),
     {| ticks := 2; trace := [] |}).
Proof. vm_compute. reflexivity. Qed.

(** C6 (amended): for every list of mapping records, normalization
    builds one row dict per record, in order, and fills each of the
    fifteen fields from its own key alone: [None] when the key is
    missing, the value stored under the key, taken as it is whatever
    its type, when it is present; no record and no run is aborted.  The
    frame returned is [pd.DataFrame] of these dicts.  (The statement is
    about the dicts: the value that pandas then stores in a cell may be
    converted to the dtype of its column.) *)
Theorem fields_extracted_independently (self : CryptoDataFetcher) (env : Env)
    (d : gmap string json) (ds : list (gmap string json)) (w : World) :
  exists (processed_data : list row) (w' : World),
    process_market_data self (JArr (JObj <$> (d :: ds))) env w
    = (Ret (pd_DataFrame processed_data), w')
    /\ Forall2
         (fun (record : gmap string json) (processed_coin : row) =>
            forall col key : string,
              (col, key) ∈ source_fields ->
              (record !! key = None -> row_get processed_coin col = Some JNull)
              /\ (forall v : json,
                    record !! key = Some v -> row_get processed_coin col = Some v))
         (d :: ds) processed_data.
Proof.
  eexists _, _. split; [apply process_market_data_dicts|].
  generalize (ticks w). generalize (d :: ds). clear d ds.
  induction l as [|d ds IH]; intros n; cbn [rows_from]; constructor.
  - intros col key Hin.
    rewrite (normalized_row_get _ _ _ _ Hin). unfold dict_get.
    split; [intros -> | intros v ->]; reflexivity.
  - apply IH.
Qed.

(** C6 (counterexample): a price that is a string, not a number, is
    taken into the row dict as it is; the field is not null.  (In the
    one-row frame built from it the cell holds that string too.) *)
Lemma wrong_typed_field_is_copied :
  exists (processed_coin : row) (w' : World),
    process_market_data sample_fetcher
      (JArr [JObj (<["current_price" := JStr "n/a"]> bitcoin)])
      (env_answering (ok_response JNull)) initial_world
    = (Ret (pd_DataFrame [processed_coin]), w')
    /\ row_get processed_coin "current_price" = Some (JStr "n/a")
    /\ row_get processed_coin "current_price" <> Some JNull.
Proof.
  eexists _, _. split.
  - exact (process_market_data_dicts sample_fetcher
             (env_answering (ok_response JNull))
             (<["current_price" := JStr "n/a"]> bitcoin) [] initial_world).
  - split; [vm_compute; reflexivity | vm_compute; discriminate].
Qed.

Section Client.

Variable self : CryptoDataFetcher.
Variable env : Env.
Variables (endpoint : string) (params : list (string * string)).

Lemma new_events_app (w : World) (n : nat) (evs : list Event) :
  new_events w {| ticks := n; trace := trace w ++ evs |} = evs.
Proof. unfold new_events. cbn [trace]. apply drop_app_length. Qed.

(** C4 (amended): the client sleeps [60 / rate_limit_per_minute]
    seconds, once, exactly when the HTTP call returned a response and
    the status check passed, that is before it decodes the body
    (success or decode error); after a transport failure or an error
    status it returns without sleeping. *)
Theorem sleeps_only_after_ok_status (rate : Z) (w : World) :
  cfg_rate_limit_per_minute (config self) = Some rate ->
  0 < rate ->
  filter is_sleep
    (new_events w (snd (_make_api_request self endpoint params env w)))
  = match requests_get env (base_url self +:+ endpoint) params (timeout self) with
    | inl _ => []
    | inr response =>
        if (400 <=? status_code response) && (status_code response <? 600)
        then []
        else [EvSleep 60 rate]
    end.
Proof.
  intros Hrate Hpos.
  assert (Hz : (rate =? 0) = false) by lia.
  assert (Hn : sleep_refused rate = false) by (unfold sleep_refused; lia).
  unfold _make_api_request. run_monad.
  destruct (requests_get env (base_url self +:+ endpoint) params (timeout self))
    as [e|response]; run_monad.
  - destruct (is_RequestException e); [|destruct (is_ValueError e)]; run_monad;
      rewrite <- ?app_assoc, new_events_app; reflexivity.
  - destruct ((400 <=? status_code response) && (status_code response <? 600));
      run_monad.
    + cbn [is_RequestException exn_cls]. run_monad.
      rewrite <- ?app_assoc, new_events_app. reflexivity.
    + rewrite Hrate. run_monad. rewrite Hz, Hn. run_monad.
      destruct (body response) as [e|v]; run_monad.
      * destruct (is_RequestException e); [|destruct (is_ValueError e)]; run_monad;
          rewrite <- ?app_assoc, new_events_app; reflexivity.
      * rewrite <- ?app_assoc, new_events_app. reflexivity.
Qed.

End Client.

Lemma sleeps_only_after_ok_status_witness :
  cfg_rate_limit_per_minute (config sample_fetcher) = Some 50
  /\ 0 < 50
  /\ filter is_sleep
       (new_events initial_world
          (snd (_make_api_request sample_fetcher "/coins/markets" []
                  (env_answering undecodable_body) initial_world)))
     = [EvSleep 60 50].
Proof.
  split; [reflexivity|]. split; [lia|].
  apply (sleeps_only_after_ok_status sample_fetcher
           (env_answering undecodable_body) "/coins/markets" [] 50 initial_world);
    [reflexivity | lia].
Defined.

(** C4 (counterexample): after a refused connection, and after a
    status 500, the client returns [None] and has not slept. *)
Lemma returns_without_sleeping_after_failure :
  (fst (_make_api_request sample_fetcher "/coins/markets" []
          (env_answering connection_refused) initial_world) = Ret JNull
   /\ filter is_sleep
        (trace (snd (_make_api_request sample_fetcher "/coins/markets" []
                       (env_answering connection_refused) initial_world))) = [])
  /\ (fst (_make_api_request sample_fetcher "/coins/markets" []
             (env_answering server_error) initial_world) = Ret JNull
      /\ filter is_sleep
           (trace (snd (_make_api_request sample_fetcher "/coins/markets" []
                          (env_answering server_error) initial_world))) = []).
Proof. repeat split; vm_compute; reflexivity. Qed.

Section ClientFailures.

Variable self : CryptoDataFetcher.
Variable env : Env.
Variables (endpoint : string) (params : list (string * string)).


End ClientFailures.



Section Orchestrator.

Variable self : CryptoDataFetcher.
Variable env : Env.

(** The client adds only quiet events to the trace. *)
Lemma _make_api_request_events (endpoint : string)
    (params : list (string * string)) (w : World) :
  exists evs : list Event,
    trace (snd (_make_api_request self endpoint params env w)) = trace w ++ evs
    /\ Forall quiet evs.
Proof.
  unfold _make_api_request. run_monad.
  destruct (requests_get env (base_url self +:+ endpoint) params (timeout self))
    as [e|response]; run_monad.
  - destruct (is_RequestException e); [|destruct (is_ValueError e)]; run_monad;
      rewrite <- ?app_assoc; eexists; (split; [reflexivity|]);
      repeat constructor.
  - destruct ((400 <=? status_code response) && (status_code response <? 600));
      run_monad.
    + cbn [is_RequestException exn_cls]. run_monad.
      rewrite <- ?app_assoc. eexists. split; [reflexivity|]. repeat constructor.
    + destruct (cfg_rate_limit_per_minute (config self)) as [rate|]; run_monad.
      * destruct (rate =? 0); run_monad;
          [|destruct (sleep_refused rate); run_monad;
            [cbn [is_RequestException is_ValueError exn_cls]; run_monad
            |destruct (body response) as [e|v]; run_monad;
             [destruct (is_RequestException e); [|destruct (is_ValueError e)];
              run_monad|]]];
          rewrite <- ?app_assoc; eexists; (split; [reflexivity|]);
          repeat constructor.
      * cbn [is_RequestException is_ValueError exn_cls]. run_monad.
        rewrite <- ?app_assoc. eexists. split; [reflexivity|]. repeat constructor.
Qed.

Lemma fetch_market_data_events (w : World) :
  exists evs : list Event,
    trace (snd (fetch_market_data self env w)) = trace w ++ evs
    /\ Forall quiet evs.
Proof.
  unfold fetch_market_data.
  destruct (cfg_market_data_endpoint (config self)) as [endpoint|]; run_monad.
  - match goal with
    | |- context [_make_api_request self endpoint ?ps env ?w1] =>
        destruct (_make_api_request_events endpoint ps w1) as (evs & -> & Hq)
    end.
    cbn [trace]. rewrite <- app_assoc. eexists. split; [reflexivity|].
    constructor; [split; reflexivity | exact Hq].
  - exists []. by rewrite app_nil_r.
Qed.

Lemma reported_failures_quiet (evs : list Event) :
  Forall quiet evs -> reported_failures evs = [] /\ filter is_fs_write evs = [].
Proof.
  unfold reported_failures.
  induction 1 as [|ev evs [Hfs Hst] _ [IH1 IH2]]; [done|].
  cbn [omap list_omap]. rewrite Hst, IH1.
  rewrite filter_cons, IH2. by destruct (decide (is_fs_write ev)) as [Ht|]; [rewrite Hfs in Ht|].
Qed.

(** C3 (amended): when the fetch stage returns a decoded but empty
    array, the orchestrator stops right after the fetch: it returns
    [False], the failure it logs is the one of the fetch stage
    ("Failed to fetch market data"), the normalizer is never called,
    and no directory or file is written. *)
Theorem empty_fetch_fails_at_fetch_stage (w w1 : World) :
  fetch_market_data self env (record starting w) = (Ret (JArr []), w1) ->
  fetch_and_save_data self env w
  = (Ret false, record (EvLog ERROR [Txt "Failed to fetch market data"]) w1)
  /\ reported_failures (new_events w (snd (fetch_and_save_data self env w)))
     = [StageFetch]
  /\ filter is_fs_write (new_events w (snd (fetch_and_save_data self env w))) = [].
Proof.
  intros Hfetch.
  destruct (fetch_market_data_events (record starting w)) as (evs & Htr & Hq).
  rewrite Hfetch in Htr. cbn [snd record trace] in Htr.
  assert (Hrun : fetch_and_save_data self env w
                 = (Ret false,
                    record (EvLog ERROR [Txt "Failed to fetch market data"]) w1)).
  { unfold fetch_and_save_data. run_monad.
    unfold record, starting in Hfetch. rewrite Hfetch. reflexivity. }
  split; [exact Hrun|]. rewrite Hrun. cbn [snd].
  unfold record. rewrite Htr, <- !app_assoc, new_events_app.
  destruct (reported_failures_quiet _ Hq) as [Hr Hf].
  unfold reported_failures in *.
  rewrite !omap_app, !filter_app, Hr, Hf. split; reflexivity.
Qed.

End Orchestrator.

Lemma empty_fetch_fails_at_fetch_stage_witness :
  fetch_market_data sample_fetcher (env_answering (ok_response (JArr [])))
    (record starting initial_world)
  = (Ret (JArr []),
     snd (fetch_market_data sample_fetcher (env_answering (ok_response (JArr [])))
            (record starting initial_world)))
  /\ fst (fetch_and_save_data sample_fetcher
            (env_answering (ok_response (JArr []))) initial_world) = Ret false
  /\ reported_failures
       (new_events initial_world
          (snd (fetch_and_save_data sample_fetcher
                  (env_answering (ok_response (JArr []))) initial_world)))
     = [StageFetch].
Proof.
  assert (H : fetch_market_data sample_fetcher
                (env_answering (ok_response (JArr [])))
                (record starting initial_world)
              = (Ret (JArr []),
                 snd (fetch_market_data sample_fetcher
                        (env_answering (ok_response (JArr [])))
                        (record starting initial_world))))
    by (vm_compute; reflexivity).
  split; [exact H|].
  destruct (empty_fetch_fails_at_fetch_stage sample_fetcher
              (env_answering (ok_response (JArr []))) initial_world _ H)
    as (Hrun & Hstage & _).
  split; [rewrite Hrun; reflexivity | exact Hstage].
Defined.

(** C3 (counterexample): the server answers 200 with an empty array;
    the only failure the orchestrator reports is the one of the fetch
    stage, never the one of the normalize stage. *)
Lemma empty_fetch_not_reported_at_normalize :
  fst (fetch_market_data sample_fetcher
         (env_answering (ok_response (JArr []))) initial_world) = Ret (JArr [])
  /\ reported_failures
       (trace (snd (fetch_and_save_data sample_fetcher
                      (env_answering (ok_response (JArr []))) initial_world)))
     = [StageFetch]
  /\ StageNormalize ∉
       reported_failures
         (trace (snd (fetch_and_save_data sample_fetcher
                        (env_answering (ok_response (JArr []))) initial_world))).
Proof.
  assert (H : reported_failures
                (trace (snd (fetch_and_save_data sample_fetcher
                               (env_answering (ok_response (JArr [])))
                               initial_world)))
              = [StageFetch]) by (vm_compute; reflexivity).
  split; [vm_compute; reflexivity|]. split; [exact H|].
  rewrite H. intros Hin. apply list_elem_of_singleton in Hin. discriminate Hin.
Qed.

Section Writer.

Variable self : CryptoDataFetcher.
Variable env : Env.

(** What [save_to_csv] does to an empty frame. *)
Lemma save_to_csv_empty (df : DataFrame) (w : World) :
  df_empty df = true ->
  save_to_csv self df env w
  = (Ret "", record (EvLog WARNING [Txt "No data to save"]) w).
Proof. intros Hempty. unfold save_to_csv. rewrite Hempty. reflexivity. Qed.

(** C7: persisting an empty frame returns the empty string, the
    failure result, and does nothing but log a warning: no directory
    is created, no file is written and the clock is not read. *)
Theorem save_empty_frame_writes_nothing (df : DataFrame) (w : World) :
  df_empty df = true ->
  save_to_csv self df env w
  = (Ret "", record (EvLog WARNING [Txt "No data to save"]) w)
  /\ filter is_fs_write (new_events w (snd (save_to_csv self df env w))) = [].
Proof.
  intros Hempty. rewrite (save_to_csv_empty _ _ Hempty).
  split; [reflexivity|]. unfold record. cbn [snd]. by rewrite new_events_app.
Qed.

(** What [save_to_csv] does to a frame that is not empty. *)
Lemma save_to_csv_nonempty (df : DataFrame) (w : World) :
  df_empty df = false ->
  save_to_csv self df env w
  = let filepath := artifact_path (now env (ticks w)) in
    let w1 := record (EvMakedirs (os_path_dirname filepath)) (tick w) in
    match os_makedirs env (os_path_dirname filepath) with
    | Some e =>
        (Ret "", record (EvLog ERROR [Txt "Error saving data to CSV: "; Err e]) w1)
    | None =>
        let w2 := record (EvToCsv filepath df) w1 in
        match to_csv env filepath df with
        | Some e =>
            (Ret "",
             record (EvLog ERROR [Txt "Error saving data to CSV: "; Err e]) w2)
        | None =>
            (Ret filepath,
             record (EvLog INFO [Txt "Data saved to "; Txt filepath]) w2)
        end
    end.
Proof.
  intros Hne. unfold save_to_csv. rewrite Hne.
  unfold bind at 1, datetime_now. cbv zeta.
  fold (artifact_path (now env (ticks w))).
  generalize (artifact_path (now env (ticks w))). intros filepath.
  run_monad.
  destruct (os_makedirs env (os_path_dirname filepath)); run_monad;
    [reflexivity|].
  destruct (to_csv env filepath df); run_monad; reflexivity.
Qed.

End Writer.

Lemma artifact_path_not_empty (t : datetime) :
  String.eqb (artifact_path t) "" = false.
Proof. reflexivity. Qed.

Section RunOutcome.

Variable self : CryptoDataFetcher.
Variable env : Env.

(** The run of the orchestrator once fetch and normalize have
    succeeded: its result is decided by the path that [save_to_csv]
    returns. *)
Lemma fetch_and_save_data_after_normalize (w w1 w2 w3 : World)
    (raw_data : json) (df : DataFrame) (filepath : string) :
  fetch_market_data self env (record starting w) = (Ret raw_data, w1) ->
  truthy raw_data = true ->
  process_market_data self raw_data env w1 = (Ret df, w2) ->
  df_empty df = false ->
  save_to_csv self df env w2 = (Ret filepath, w3) ->
  fetch_and_save_data self env w
  = if String.eqb filepath ""
    then (Ret false, record (EvLog ERROR [Txt "Failed to save data"]) w3)
    else (Ret true,
          record (EvLog INFO [Txt "Successfully completed data fetch and save. File: ";
                              Txt filepath]) w3).
Proof.
  intros Hfetch Htruthy Hprocess Hne Hsave.
  unfold fetch_and_save_data. run_monad.
  unfold record, starting in Hfetch. rewrite Hfetch, Htruthy. cbn [negb].
  rewrite Hprocess, Hne, Hsave.
  destruct (String.eqb filepath ""); reflexivity.
Qed.

(** C9: [save_to_csv] returns the same value, the empty string, when
    the frame is empty and when creating the directory or writing the
    file raises; a run of the orchestrator whose save fails returns
    [False] with the one message "Failed to save data", whatever the
    cause. *)
Theorem save_failures_share_the_empty_string (w w1 w2 : World)
    (raw_data : json) (df df0 : DataFrame) :
  fetch_market_data self env (record starting w) = (Ret raw_data, w1) ->
  truthy raw_data = true ->
  process_market_data self raw_data env w1 = (Ret df, w2) ->
  df_empty df = false ->
  (os_makedirs env (os_path_dirname (artifact_path (now env (ticks w2)))) <> None
   \/ to_csv env (artifact_path (now env (ticks w2))) df <> None) ->
  df_empty df0 = true ->
  fst (save_to_csv self df0 env w2) = Ret ""
  /\ fst (save_to_csv self df env w2) = Ret ""
  /\ fst (fetch_and_save_data self env w) = Ret false
  /\ last (trace (snd (fetch_and_save_data self env w)))
     = Some (EvLog ERROR [Txt "Failed to save data"]).
Proof.
  intros Hfetch Htruthy Hprocess Hne Hio Hempty.
  assert (Hsave : fst (save_to_csv self df env w2) = Ret "").
  { rewrite (save_to_csv_nonempty _ _ _ _ Hne). cbv zeta.
    destruct (os_makedirs env _) as [e|]; [reflexivity|].
    destruct (to_csv env _ df) as [e|]; [reflexivity|].
    by destruct Hio as [Hio|Hio]. }
  split; [by rewrite (save_to_csv_empty self env _ w2 Hempty)|].
  split; [exact Hsave|].
  destruct (save_to_csv self df env w2) as [res w3] eqn:Hs.
  cbn [fst] in Hsave. subst res.
  rewrite (fetch_and_save_data_after_normalize _ _ _ _ _ _ _
             Hfetch Htruthy Hprocess Hne Hs).
  cbn [String.eqb fst snd record trace]. split; [reflexivity | apply last_snoc].
Qed.

(** [save_to_csv] returns the empty string only when it failed. *)
Lemma save_to_csv_empty_string_iff (df : DataFrame) (w : World) :
  fst (save_to_csv self df env w) = Ret ""
  <-> df_empty df = true
      \/ os_makedirs env (os_path_dirname (artifact_path (now env (ticks w)))) <> None
      \/ to_csv env (artifact_path (now env (ticks w))) df <> None.
Proof.
  destruct (df_empty df) eqn:Hd.
  - rewrite (save_to_csv_empty self env _ w Hd). naive_solver.
  - rewrite (save_to_csv_nonempty _ _ _ _ Hd). cbv zeta.
    destruct (os_makedirs env _) as [e|]; [naive_solver|].
    destruct (to_csv env _ df) as [e|]; [naive_solver|].
    cbn [fst]. split.
    + intros H. injection H as H.
      pose proof (artifact_path_not_empty (now env (ticks w))) as Hp.
      rewrite H in Hp. discriminate Hp.
    + intros [H|[H|H]]; [discriminate H | done | done].
Qed.

(** Every exception that a stage raises is caught:
    [fetch_and_save_data] returns a boolean. *)
Lemma fetch_and_save_data_returns (w : World) :
  exists (b : bool) (w' : World), fetch_and_save_data self env w = (Ret b, w').
Proof.
  unfold fetch_and_save_data, try_except.
  match goal with |- context [match ?body env w with _ => _ end] =>
    destruct (body env w) as [[b|e] w1] end.
  - eauto.
  - run_monad. eauto.
Qed.

End RunOutcome.

(** [main] returns whatever the world does, and its last effect is the
    message it prints. *)
Lemma main_returns (env : Env) (w : World) :
  exists (message : list fragment) (w' : World),
    main env w = (Ret tt, w')
    /\ last (trace w') = Some (EvPrint message).
Proof.
  unfold main, try_except.
  match goal with |- context [match ?body env w with _ => _ end] =>
    destruct (body env w) as [[[]|e] w1] eqn:Hbody end.
  - unfold bind in Hbody.
    destruct (__init__ "config/config.yaml" env w) as [[fetcher|e] w2];
      [|discriminate Hbody].
    destruct (fetch_and_save_data fetcher env w2) as [[[]|e] w3];
      [| |discriminate Hbody]; unfold print, emit in Hbody;
      apply returned_eq in Hbody as [_ <-]; eexists _, _;
      (split; [reflexivity | apply last_snoc]).
  - unfold print, emit. eexists _, _. split; [reflexivity | apply last_snoc].
Qed.

(** C8: no exception escapes.  Whatever the clock, the server, the
    file system and the configuration do, [fetch_and_save_data] returns
    a boolean and [main] returns; when building the fetcher raises
    (configuration loading, logging setup, a missing key), [main]
    prints "Error initializing crypto data fetcher: ..." with the
    exception and returns. *)
Theorem no_exception_escapes (env : Env) (w : World) :
  (forall self : CryptoDataFetcher,
     exists (b : bool) (w' : World), fetch_and_save_data self env w = (Ret b, w'))
  /\ (exists w' : World, main env w = (Ret tt, w'))
  /\ (forall (e : exn) (w1 : World),
        __init__ "config/config.yaml" env w = (Raise e, w1) ->
        main env w
        = (Ret tt,
           record (EvPrint [Txt "Error initializing crypto data fetcher: "; Err e]) w1)).
Proof.
  split; [intros self; apply fetch_and_save_data_returns|].
  split.
  - destruct (main_returns env w) as (message & w' & H & _). eauto.
  - intros e w1 Hinit. unfold main, try_except, bind. rewrite Hinit. reflexivity.
Qed.

Lemma no_exception_escapes_witness :
  __init__ "config/config.yaml" env_without_config initial_world
  = (Raise (Exn FileNotFoundError
              "Configuration file not found: config/config.yaml"), initial_world)
  /\ main env_without_config initial_world
     = (Ret tt,
        {| ticks := 0;
           trace := [EvPrint [Txt "Error initializing crypto data fetcher: ";
                              Err (Exn FileNotFoundError
                                     "Configuration file not found: config/config.yaml")]] |}).
Proof.
  assert (H : __init__ "config/config.yaml" env_without_config initial_world
              = (Raise (Exn FileNotFoundError
                          "Configuration file not found: config/config.yaml"),
                 initial_world)) by reflexivity.
  split; [exact H|].
  exact (proj2 (proj2 (no_exception_escapes env_without_config initial_world)) _ _ H).
Defined.

(** C10: [main] returns normally in every world, so the process exits
    with status 0, on success, on a failed pipeline and on a failed
    initialization alike; in each case its last effect is the message
    it prints. *)
Theorem exit_status_is_always_zero (env : Env) (w : World) :
  exit_status env w = 0
  /\ exists message : list fragment,
       last (trace (snd (main env w))) = Some (EvPrint message).
Proof.
  unfold exit_status.
  destruct (main_returns env w) as (message & w' & -> & Hlast).
  split; [reflexivity | by exists message].
Qed.

Lemma save_empty_frame_writes_nothing_witness :
  df_empty (pd_DataFrame []) = true
  /\ save_to_csv sample_fetcher (pd_DataFrame [])
       (env_answering (ok_response JNull)) initial_world
     = (Ret "", {| ticks := 0; trace := [EvLog WARNING [Txt "No data to save"]] |}).
Proof.
  split; [reflexivity|].
  apply (save_empty_frame_writes_nothing sample_fetcher
           (env_answering (ok_response JNull)) (pd_DataFrame []) initial_world).
  reflexivity.
Defined.

Lemma save_failures_share_the_empty_string_witness :
  (fetch_market_data sample_fetcher disk_full (record starting initial_world)
   = (Ret two_coins, fetched_world)
   /\ truthy two_coins = true
   /\ process_market_data sample_fetcher two_coins disk_full fetched_world
      = (Ret two_rows, normalized_world)
   /\ df_empty two_rows = false
   /\ to_csv disk_full (artifact_path (now disk_full (ticks normalized_world))) two_rows
      <> None
   /\ df_empty (pd_DataFrame []) = true)
  /\ fst (save_to_csv sample_fetcher (pd_DataFrame []) disk_full normalized_world)
     = Ret ""
  /\ fst (save_to_csv sample_fetcher two_rows disk_full normalized_world) = Ret ""
  /\ fst (fetch_and_save_data sample_fetcher disk_full initial_world) = Ret false.
Proof.
  assert (Hfetch : fetch_market_data sample_fetcher disk_full
                     (record starting initial_world)
                   = (Ret two_coins, fetched_world))
    by (vm_compute; reflexivity).
  assert (Hprocess : process_market_data sample_fetcher two_coins disk_full
                       fetched_world = (Ret two_rows, normalized_world))
    by (vm_compute; reflexivity).
  assert (Hio : to_csv disk_full
                  (artifact_path (now disk_full (ticks normalized_world))) two_rows
                <> None)
    by discriminate.
  destruct (save_failures_share_the_empty_string sample_fetcher disk_full
              initial_world fetched_world normalized_world two_coins two_rows
              (pd_DataFrame [])
              Hfetch eq_refl Hprocess eq_refl (or_intror Hio) eq_refl)
    as (H0 & H1 & H2 & _).
  split; [|split; [exact H0 | split; [exact H1 | exact H2]]].
  split; [exact Hfetch|]. split; [reflexivity|]. split; [exact Hprocess|].
  split; [reflexivity|]. split; [exact Hio | reflexivity].
Defined.

Lemma fields_extracted_independently_witness :
  exists (processed_data : list row) (w' : World),
    process_market_data sample_fetcher (JArr (JObj <$> [bitcoin; ethereum]))
      (env_answering (ok_response JNull)) initial_world
    = (Ret (pd_DataFrame processed_data), w')
    /\ Forall2
         (fun (record : gmap string json) (processed_coin : row) =>
            forall col key : string,
              (col, key) ∈ source_fields ->
              (record !! key = None -> row_get processed_coin col = Some JNull)
              /\ (forall v : json,
                    record !! key = Some v -> row_get processed_coin col = Some v))
         [bitcoin; ethereum] processed_data.
Proof.
  exact (fields_extracted_independently sample_fetcher
           (env_answering (ok_response JNull)) bitcoin [ethereum] initial_world).
Defined.

Lemma exit_status_is_always_zero_witness :
  exit_status env_without_config initial_world = 0.
Proof.
  exact (proj1 (exit_status_is_always_zero env_without_config initial_world)).
Defined.

(** The whole run on a well-formed record followed by a number: the
    exception of the normalizer is caught by the orchestrator, the run
    fails and nothing is written. *)
Example number_among_records_fails_the_run :
  fetch_and_save_data sample_fetcher
    (env_answering (ok_response (JArr [JObj bitcoin; JInt 42]))) initial_world
  = (Ret false,
     {| ticks := 2;
        trace :=
          [ starting;
            EvLog INFO [Txt "Fetching market data for "; Num 2;
                        Txt " cryptocurrencies"];
            EvLog INFO [Txt "Making API request to: ";
                        Txt "https://api.coingecko.com/api/v3/coins/markets"];
            EvHttpGet "https://api.coingecko.com/api/v3/coins/markets"
              [("ids", "bitcoin,ethereum"); ("vs_currency", "usd");
               ("include_market_cap", "true"); ("include_24hr_vol", "true");
               ("include_24hr_change", "true");
               ("include_last_updated_at", "true")] 30;
            EvSleep 60 50;
            EvLog ERROR [Txt "Unexpected error in fetch_and_save_data: ";
                         Err (Exn AttributeError
                                "'int' object has no attribute 'get'")] ] |}).
Proof. vm_compute. reflexivity. Qed.

(** * Further properties *)

(** ** Where the artifact goes *)

Lemma list_ascii_of_string_app (a b : string) :
  String.list_ascii_of_string (a +:+ b)
  = String.list_ascii_of_string a ++ String.list_ascii_of_string b.
Proof. induction a as [|c a IH]; simpl; [reflexivity | by f_equal]. Qed.

Lemma no_slash_app (a b : string) : no_slash a -> no_slash b -> no_slash (a +:+ b).
Proof.
  unfold no_slash. rewrite list_ascii_of_string_app. apply Forall_app_2.
Qed.

Lemma digit_char_no_slash (n : nat) : no_slash (digit_char n).
Proof.
  do 9 (destruct n as [|n]; [repeat constructor|]). repeat constructor.
Qed.

Lemma zero_padded_no_slash (width n : nat) : no_slash (zero_padded width n).
Proof.
  revert n. induction width as [|width IH]; intros n; cbn [zero_padded].
  - constructor.
  - apply no_slash_app; [apply IH | apply digit_char_no_slash].
Qed.

Lemma strftime_no_slash (t : datetime) : no_slash (strftime_Ymd_HMS t).
Proof.
  unfold strftime_Ymd_HMS.
  repeat (apply no_slash_app; [apply zero_padded_no_slash|]);
    try apply zero_padded_no_slash.
  apply no_slash_app; [repeat constructor|].
  repeat (apply no_slash_app; [apply zero_padded_no_slash|]).
  apply zero_padded_no_slash.
Qed.

Lemma drop_basename_rev_no_slash (l r : list Ascii.ascii) :
  Forall (fun c => Ascii.eqb c "/"%char = false) l ->
  drop_basename_rev (l ++ r) = drop_basename_rev r.
Proof. induction 1 as [|c l Hc _ IH]; cbn; [reflexivity | by rewrite Hc]. Qed.

Lemma artifact_path_eq (t : datetime) :
  artifact_path t
  = "data/raw/crypto_market_data_" +:+ strftime_Ymd_HMS t +:+ ".csv".
Proof. reflexivity. Qed.

(** The artifact is named [crypto_market_data_<YYYYMMDD_HHMMSS>.csv]
    and its directory is [data/raw], whatever the clock reads. *)
Lemma artifact_dirname (t : datetime) :
  os_path_dirname (artifact_path t) = "data/raw".
Proof.
  rewrite artifact_path_eq. unfold os_path_dirname.
  change ("data/raw/crypto_market_data_" +:+ strftime_Ymd_HMS t +:+ ".csv")
    with ("data/raw/" +:+ ("crypto_market_data_" +:+ strftime_Ymd_HMS t +:+ ".csv")).
  rewrite list_ascii_of_string_app, rev_app_distr.
  rewrite drop_basename_rev_no_slash; [reflexivity|].
  apply Forall_rev.
  apply (no_slash_app "crypto_market_data_" (strftime_Ymd_HMS t +:+ ".csv"));
    [repeat constructor|].
  apply no_slash_app; [apply strftime_no_slash | repeat constructor].
Qed.

(** ** The normalizer *)

Section NormalizerRuns.

Variable self : CryptoDataFetcher.
Variable env : Env.

(** The loop logs nothing: its handler never gets to its log call. *)
Lemma process_coins_trace (coins : list json) :
  forall (acc : list row) (w : World),
    trace (snd (process_coins coins acc env w)) = trace w.
Proof.
  induction coins as [|coin coins IH]; intros acc w; [reflexivity|].
  destruct (is_dict coin) eqn:E.
  - destruct coin; try discriminate E.
    rewrite process_coins_dict, IH. reflexivity.
  - by rewrite (process_coins_not_dict _ _ _ _ _ E).
Qed.

(** Normalization adds at most one log record to the trace, and
    nothing else. *)
Lemma process_market_data_events (raw_data : json) (w : World) :
  exists evs : list Event,
    trace (snd (process_market_data self raw_data env w)) = trace w ++ evs
    /\ Forall quiet evs.
Proof.
  unfold process_market_data. destruct (truthy raw_data); cbn [negb].
  - unfold bind at 1.
    destruct (py_iter raw_data env w) as [[coins|e] w1] eqn:Hiter.
    + assert (w1 = w) as ->.
      { destruct raw_data; cbn in Hiter; by injection Hiter. }
      unfold bind at 1.
      pose proof (process_coins_trace coins [] w) as Htr.
      destruct (process_coins coins [] env w) as [[rows|e] w2]; cbn [snd] in Htr.
      * run_monad. rewrite Htr. eexists. split; [reflexivity|].
        repeat constructor.
      * cbn [snd]. rewrite Htr. exists []. by rewrite app_nil_r.
    + assert (w1 = w) as ->.
      { destruct raw_data; cbn in Hiter; by injection Hiter. }
      exists []. by rewrite app_nil_r.
  - run_monad. eexists. split; [reflexivity|]. repeat constructor.
Qed.

(** X1: the frame that normalization returns is empty exactly when
    its input was falsy ([None], an empty list): a truthy input gives a
    frame with at least one row or raises, never an empty frame. *)
Theorem empty_frame_iff_falsy_input (raw_data : json) (w w' : World)
    (df : DataFrame) :
  process_market_data self raw_data env w = (Ret df, w') ->
  (df_empty df = true <-> truthy raw_data = false).
Proof.
  intros H.
  destruct (process_market_data_returns _ _ _ _ _ _ H) as [[Hf ->]|(d & ds & ->)].
  - by rewrite Hf.
  - rewrite process_market_data_dicts in H. apply returned_eq in H as [<- _].
    split; intros Hx; discriminate Hx.
Qed.

(** X2: a frame that normalization returns, unless it is empty, has
    the sixteen columns that the test suite expects, in that order:
    none is missing and none is extra. *)
Theorem frame_has_expected_columns (raw_data : json) (w w' : World)
    (df : DataFrame) :
  process_market_data self raw_data env w = (Ret df, w') ->
  df_empty df = false ->
  df_columns df = expected_columns
  /\ missing_columns df = ∅
  /\ extra_columns df = ∅.
Proof.
  intros H Hne.
  assert (Hcols : df_columns df = expected_columns).
  { destruct (process_market_data_returns _ _ _ _ _ _ H) as [[_ ->]|(d & ds & ->)];
      [discriminate Hne|].
    rewrite process_market_data_dicts in H. apply returned_eq in H as [<- _].
    reflexivity. }
  unfold missing_columns, extra_columns. rewrite Hcols.
  split; [reflexivity|]. split; apply difference_diag_L.
Qed.

(** Normalization reads the clock once per row and never otherwise. *)
Lemma one_clock_reading_per_row (raw_data : json) (w w' : World)
    (df : DataFrame) :
  process_market_data self raw_data env w = (Ret df, w') ->
  ticks w' = (ticks w + df_len df)%nat.
Proof.
  intros H.
  destruct (process_market_data_returns _ _ _ _ _ _ H) as [[Hf ->]|(d & ds & ->)].
  - unfold process_market_data in H. rewrite Hf in H. cbn [negb] in H.
    run_monad. apply returned_eq in H as [_ <-]. cbn. lia.
  - rewrite process_market_data_dicts in H. apply returned_eq in H as [<- <-].
    unfold df_len. cbn [ticks df_records pd_DataFrame]. by rewrite rows_from_length.
Qed.

End NormalizerRuns.

Lemma empty_frame_iff_falsy_input_witness :
  process_market_data sample_fetcher JNull (env_answering (ok_response JNull))
    initial_world
  = (Ret (pd_DataFrame []),
     {| ticks := 0; trace := [EvLog WARNING [Txt "No market data to process"]] |})
  /\ (df_empty (pd_DataFrame []) = true <-> truthy JNull = false).
Proof.
  assert (H : process_market_data sample_fetcher JNull
                (env_answering (ok_response JNull)) initial_world
              = (Ret (pd_DataFrame []),
                 {| ticks := 0;
                    trace := [EvLog WARNING [Txt "No market data to process"]] |}))
    by reflexivity.
  split; [exact H|].
  exact (empty_frame_iff_falsy_input sample_fetcher _ _ _ _ _ H).
Defined.

Lemma frame_has_expected_columns_witness :
  process_market_data sample_fetcher two_coins disk_full fetched_world
  = (Ret two_rows, normalized_world)
  /\ df_empty two_rows = false
  /\ df_columns two_rows = expected_columns.
Proof.
  assert (H : process_market_data sample_fetcher two_coins disk_full fetched_world
              = (Ret two_rows, normalized_world)) by (vm_compute; reflexivity).
  split; [exact H|]. split; [reflexivity|].
  exact (proj1 (frame_has_expected_columns sample_fetcher disk_full _ _ _ _ H eq_refl)).
Defined.

(** ** The client *)

Section ClientRuns.

Variable self : CryptoDataFetcher.
Variable env : Env.

(** Every call of the client logs, makes its one HTTP request, and
    whatever follows is not another request. *)
Lemma _make_api_request_one_get (endpoint : string)
    (params : list (string * string)) (w : World) :
  exists evs : list Event,
    trace (snd (_make_api_request self endpoint params env w))
    = trace w
      ++ [EvLog INFO [Txt "Making API request to: "; Txt (base_url self +:+ endpoint)];
          EvHttpGet (base_url self +:+ endpoint) params (timeout self)]
      ++ evs
    /\ Forall (fun ev => is_http_get ev = false) evs.
Proof.
  unfold _make_api_request. run_monad.
  destruct (requests_get env (base_url self +:+ endpoint) params (timeout self))
    as [e|response]; run_monad.
  - destruct (is_RequestException e); [|destruct (is_ValueError e)]; run_monad;
      rewrite <- ?app_assoc; eexists; (split; [reflexivity|]);
      repeat constructor.
  - destruct ((400 <=? status_code response) && (status_code response <? 600));
      run_monad.
    + cbn [is_RequestException exn_cls]. run_monad.
      rewrite <- ?app_assoc. eexists. split; [reflexivity|]. repeat constructor.
    + destruct (cfg_rate_limit_per_minute (config self)) as [rate|]; run_monad.
      * destruct (rate =? 0); run_monad;
          [|destruct (sleep_refused rate); run_monad;
            [cbn [is_RequestException is_ValueError exn_cls]; run_monad
            |destruct (body response) as [e|v]; run_monad;
             [destruct (is_RequestException e); [|destruct (is_ValueError e)];
              run_monad|]]];
          rewrite <- ?app_assoc; eexists; (split; [reflexivity|]);
          repeat constructor.
      * cbn [is_RequestException is_ValueError exn_cls]. run_monad.
        rewrite <- ?app_assoc. eexists. split; [reflexivity|]. repeat constructor.
Qed.

(** X3: with its endpoint configured, [fetch_market_data] makes
    exactly one HTTP request, whatever the server answers and however
    the call ends: to [base_url + endpoint], with the timeout of the
    configuration and with the tracked coins comma-joined under [ids].
    A failed call is not retried. *)
Theorem fetch_makes_exactly_one_request (endpoint : string) (w : World) :
  cfg_market_data_endpoint (config self) = Some endpoint ->
  filter is_http_get (new_events w (snd (fetch_market_data self env w)))
  = [EvHttpGet (base_url self +:+ endpoint) (market_data_params self) (timeout self)].
Proof.
  intros Hep. unfold fetch_market_data. rewrite Hep. run_monad.
  fold (market_data_params self). unfold new_events.
  match goal with
  | |- context [_make_api_request self endpoint ?ps env ?w1] =>
      destruct (_make_api_request_one_get endpoint ps w1) as (evs & -> & Hq)
  end.
  cbn [trace]. rewrite <- app_assoc, drop_app_length.
  rewrite !filter_app.
  assert (Hnone : filter is_http_get evs = []).
  { clear -Hq. induction Hq as [|ev evs Hev _ IH]; [reflexivity|].
    rewrite filter_cons, IH. destruct (decide (is_http_get ev)) as [Ht|]; [|reflexivity].
    by rewrite Hev in Ht. }
  rewrite Hnone. reflexivity.
Qed.

(** When the endpoint is missing from the configuration,
    [fetch_market_data] raises [KeyError] before anything else. *)
Lemma fetch_without_endpoint_raises (w : World) :
  cfg_market_data_endpoint (config self) = None ->
  fetch_market_data self env w = (Raise (Exn KeyError "market_data"), w).
Proof. intros Hep. unfold fetch_market_data. rewrite Hep. reflexivity. Qed.

(** On an accepted status with a decodable body and a positive rate
    limit, the client returns the decoded body as it is; its effects
    are the log record, the request and the sleep, in that order. *)
Lemma request_returns_decoded_body (endpoint : string)
    (params : list (string * string)) (response : Response) (v : json)
    (rate : Z) (w : World) :
  requests_get env (base_url self +:+ endpoint) params (timeout self) = inr response ->
  (400 <=? status_code response) && (status_code response <? 600) = false ->
  body response = inr v ->
  cfg_rate_limit_per_minute (config self) = Some rate ->
  0 < rate ->
  _make_api_request self endpoint params env w
  = (Ret v,
     {| ticks := ticks w;
        trace := trace w
                 ++ [EvLog INFO [Txt "Making API request to: ";
                                 Txt (base_url self +:+ endpoint)];
                     EvHttpGet (base_url self +:+ endpoint) params (timeout self);
                     EvSleep 60 rate] |}).
Proof.
  intros Hget Hstatus Hbody Hrate Hpos.
  assert (Hz : (rate =? 0) = false) by lia.
  assert (Hn : sleep_refused rate = false) by (unfold sleep_refused; lia).
  unfold _make_api_request. run_monad. rewrite Hget. run_monad.
  rewrite Hstatus. run_monad. rewrite Hrate. run_monad. rewrite Hz, Hn. run_monad.
  rewrite Hbody. run_monad. by rewrite <- !app_assoc.
Qed.

(** X4: a rate limit that is missing or zero makes the client raise
    after a request that the server accepted: [KeyError] or
    [ZeroDivisionError] is neither of the classes its handlers catch,
    so the call does not return [None], it raises, and it has not
    slept. *)
Theorem unusable_rate_limit_raises (endpoint : string)
    (params : list (string * string)) (response : Response) (w : World) :
  requests_get env (base_url self +:+ endpoint) params (timeout self) = inr response ->
  (400 <=? status_code response) && (status_code response <? 600) = false ->
  cfg_rate_limit_per_minute (config self) = None
  \/ cfg_rate_limit_per_minute (config self) = Some 0 ->
  exists e : exn,
    fst (_make_api_request self endpoint params env w) = Raise e
    /\ (exn_cls e = KeyError \/ exn_cls e = ZeroDivisionError)
    /\ filter is_sleep
         (new_events w (snd (_make_api_request self endpoint params env w))) = [].
Proof.
  intros Hget Hstatus Hrate.
  unfold _make_api_request. run_monad. rewrite Hget. run_monad.
  rewrite Hstatus. run_monad.
  destruct Hrate as [-> | ->]; run_monad;
    cbn [Z.eqb is_RequestException is_ValueError exn_cls]; run_monad;
    eexists; (split; [reflexivity|]); rewrite <- ?app_assoc, new_events_app;
    (split; [auto | reflexivity]).
Qed.

(** X5: with a negative rate limit whose magnitude is below
    [60 * 2 ^ 1075], the length [60 / rate] is a negative float and
    [time.sleep] refuses it with a [ValueError], which the handler
    meant for decode errors catches: the client logs "JSON parsing
    failed", returns [None] and drops the body although the server's
    answer was fine.  (From that magnitude on the quotient rounds to
    [-0.0], which [time.sleep] accepts.) *)
Theorem negative_rate_limit_loses_the_answer (endpoint : string)
    (params : list (string * string)) (response : Response)
    (rate : Z) (w : World) :
  requests_get env (base_url self +:+ endpoint) params (timeout self) = inr response ->
  (400 <=? status_code response) && (status_code response <? 600) = false ->
  cfg_rate_limit_per_minute (config self) = Some rate ->
  - float_underflow_bound < rate < 0 ->
  _make_api_request self endpoint params env w
  = (Ret JNull,
     {| ticks := ticks w;
        trace := trace w
                 ++ [EvLog INFO [Txt "Making API request to: ";
                                 Txt (base_url self +:+ endpoint)];
                     EvHttpGet (base_url self +:+ endpoint) params (timeout self);
                     EvLog ERROR
                       [Txt "JSON parsing failed for ";
                        Txt (base_url self +:+ endpoint); Txt ": ";
                        Err (Exn ValueError "sleep length must be non-negative")]] |}).
Proof.
  intros Hget Hstatus Hrate Hneg.
  assert (Hz : (rate =? 0) = false) by lia.
  assert (Hn : sleep_refused rate = true) by (unfold sleep_refused; lia).
  unfold _make_api_request. run_monad. rewrite Hget. run_monad.
  rewrite Hstatus. run_monad. rewrite Hrate. run_monad. rewrite Hz, Hn. run_monad.
  cbn [is_RequestException is_ValueError exn_cls]. run_monad.
  by rewrite <- !app_assoc.
Qed.

(** A negative rate limit of magnitude [60 * 2 ^ 1075] or more: the
    length is [-0.0], the sleep is accepted and the call goes on to
    decode the body. *)
Lemma underflowing_rate_limit_sleeps (endpoint : string)
    (params : list (string * string)) (response : Response) (v : json)
    (rate : Z) (w : World) :
  requests_get env (base_url self +:+ endpoint) params (timeout self) = inr response ->
  (400 <=? status_code response) && (status_code response <? 600) = false ->
  body response = inr v ->
  cfg_rate_limit_per_minute (config self) = Some rate ->
  rate <= - float_underflow_bound ->
  fst (_make_api_request self endpoint params env w) = Ret v.
Proof.
  intros Hget Hstatus Hbody Hrate Hbig.
  assert (Hpos : 0 < float_underflow_bound) by reflexivity.
  assert (Hz : (rate =? 0) = false) by lia.
  assert (Hn : sleep_refused rate = false) by (unfold sleep_refused; lia).
  unfold _make_api_request. run_monad. rewrite Hget. run_monad.
  rewrite Hstatus. run_monad. rewrite Hrate. run_monad. rewrite Hz, Hn. run_monad.
  rewrite Hbody. reflexivity.
Qed.

End ClientRuns.

(** ** The orchestrator *)

Section OrchestratorRuns.

Variable self : CryptoDataFetcher.
Variable env : Env.

(** A truthy input never gives an empty frame. *)
Lemma process_market_data_truthy (raw_data : json) (w w' : World)
    (df : DataFrame) :
  truthy raw_data = true ->
  process_market_data self raw_data env w = (Ret df, w') ->
  df_empty df = false.
Proof.
  intros Ht H.
  destruct (process_market_data_returns _ _ _ _ _ _ H) as [[Hf _]|(d & ds & ->)].
  - congruence.
  - rewrite process_market_data_dicts in H. by apply returned_eq in H as [<- _].
Qed.

(** Every run of the orchestrator has one of the four shapes. *)
Lemma fetch_and_save_data_run (w : World) :
  exists evs : list Event,
    trace (snd (fetch_and_save_data self env w)) = trace w ++ evs
    /\ run_shape env (fst (fetch_and_save_data self env w)) evs.
Proof.
  destruct (fetch_market_data_events self env (record starting w))
    as (e1 & Ht1 & Hq1).
  destruct (reported_failures_quiet _ Hq1) as [Hr1 Hf1].
  unfold reported_failures in Hr1.
  destruct (fetch_market_data self env (record starting w))
    as [[raw|e] w1] eqn:Hfetch; cbn [snd record trace] in Ht1;
    unfold record, starting in Hfetch;
    unfold fetch_and_save_data; run_monad; rewrite Hfetch.
  2:{ (* the fetch raised *)
      run_monad. rewrite Ht1, <- !app_assoc. eexists. split; [reflexivity|].
      apply run_stopped; [|left]; unfold reported_failures;
        rewrite ?filter_app, ?omap_app, ?Hf1, ?Hr1; reflexivity. }
  destruct (truthy raw) eqn:Htruthy; cbn [negb].
  2:{ (* the fetch returned nothing *)
      run_monad. rewrite Ht1, <- !app_assoc. eexists. split; [reflexivity|].
      apply run_stopped; [|right]; unfold reported_failures;
        rewrite ?filter_app, ?omap_app, ?Hf1, ?Hr1; reflexivity. }
  destruct (process_market_data_events self env raw w1) as (e2 & Ht2 & Hq2).
  destruct (reported_failures_quiet _ Hq2) as [Hr2 Hf2].
  unfold reported_failures in Hr2.
  destruct (process_market_data self raw env w1) as [[df|e] w2] eqn:Hprocess;
    cbn [snd] in Ht2.
  2:{ (* the normalizer raised *)
      run_monad. rewrite Ht2, Ht1, <- !app_assoc. eexists. split; [reflexivity|].
      apply run_stopped; [|left]; unfold reported_failures;
        rewrite ?filter_app, ?omap_app, ?Hf1, ?Hr1, ?Hf2, ?Hr2; reflexivity. }
  pose proof (process_market_data_truthy _ _ _ _ Htruthy Hprocess) as Hne.
  rewrite Hne, (save_to_csv_nonempty self env _ _ Hne). cbv zeta.
  rewrite artifact_dirname.
  destruct (os_makedirs env "data/raw") as [e|] eqn:Hmk.
  { (* the directory could not be created *)
    cbn [String.eqb]. run_monad. unfold record, tick. cbn [trace ticks].
    rewrite Ht2, Ht1, <- !app_assoc. eexists. split; [reflexivity|].
    apply run_no_directory; [by rewrite Hmk| |]; unfold reported_failures;
      rewrite ?filter_app, ?omap_app, ?Hf1, ?Hr1, ?Hf2, ?Hr2; reflexivity. }
  destruct (to_csv env (artifact_path (now env (ticks w2))) df) as [e|] eqn:Hcsv.
  { (* the file could not be written *)
    cbn [String.eqb]. run_monad. unfold record, tick. cbn [trace ticks].
    rewrite Ht2, Ht1, <- !app_assoc. eexists. split; [reflexivity|].
    apply (run_no_file env (now env (ticks w2)) df); [done|by rewrite Hcsv| |];
      unfold reported_failures;
      rewrite ?filter_app, ?omap_app, ?Hf1, ?Hr1, ?Hf2, ?Hr2; reflexivity. }
  (* the frame was saved *)
  rewrite artifact_path_not_empty. run_monad. unfold record, tick. cbn [trace ticks].
  rewrite Ht2, Ht1, <- !app_assoc. eexists. split; [reflexivity|].
  apply (run_saved env (now env (ticks w2)) df); [done|done|done| |];
    unfold reported_failures;
    rewrite ?filter_app, ?omap_app, ?Hf1, ?Hr1, ?Hf2, ?Hr2; reflexivity.
Qed.

End OrchestratorRuns.

Lemma new_events_of_extension (w w' : World) (evs : list Event) :
  trace w' = trace w ++ evs -> new_events w w' = evs.
Proof. intros H. unfold new_events. rewrite H. apply drop_app_length. Qed.

(** X6: the orchestrator never reports a failure of the normalize
    stage.  A run reports no failed stage, the fetch stage or the
    persist stage, and none when it returns [True]: after a truthy
    fetch the normalizer returns a frame with rows or raises, so the
    branch that logs "No data was processed" is never taken. *)
Theorem normalize_failure_is_never_reported (self : CryptoDataFetcher)
    (env : Env) (w : World) :
  (StageNormalize ∉ reported_failures (run_events self env w))
  /\ (reported_failures (run_events self env w) = []
      \/ reported_failures (run_events self env w) = [StageFetch]
      \/ reported_failures (run_events self env w) = [StagePersist])
  /\ (fst (fetch_and_save_data self env w) = Ret true ->
      reported_failures (run_events self env w) = []).
Proof.
  unfold run_events.
  destruct (fetch_and_save_data_run self env w) as (evs & Htr & Hshape).
  rewrite (new_events_of_extension _ _ _ Htr).
  destruct (fetch_and_save_data self env w) as [res w']. cbn [fst snd] in *.
  inversion Hshape as [? Hfs Hrep|? Hmk Hfs Hrep|? ? ? Hne Hcsv Hfs Hrep
                       |? ? ? Hne Hmk Hcsv Hfs Hrep]; subst.
  - destruct Hrep as [-> | ->];
      (split; [stage_not_listed|]);
      (split; [auto | intros Habs; discriminate Habs]).
  - rewrite Hrep. split; [stage_not_listed|].
    split; [auto | intros Habs; discriminate Habs].
  - rewrite Hrep. split; [stage_not_listed|].
    split; [auto | intros Habs; discriminate Habs].
  - rewrite Hrep. split; [stage_not_listed|]. split; auto.
Qed.

(** A run has the shape of a saved one exactly when its events hold
    the writing of a file that did not raise. *)
Lemma run_shape_saved (env : Env) (res : outcome bool) (evs : list Event) :
  run_shape env res evs ->
  res = Ret true
  <-> exists (path : string) (df : DataFrame),
        EvToCsv path df ∈ evs /\ to_csv env path df = None.
Proof.
  intros Hshape.
  assert (Hin : forall path df,
             EvToCsv path df ∈ evs <-> EvToCsv path df ∈ filter is_fs_write evs).
  { intros path df. rewrite list_elem_of_filter. cbn.
    split; [by intros ? | by intros [_ ?]]. }
  inversion Hshape as [? Hfs Hrep|? Hmk Hfs Hrep|? ? ? Hne Hcsv Hfs Hrep
                       |? ? ? Hne Hmk Hcsv Hfs Hrep]; subst.
  - split; [intros Habs; discriminate Habs|].
    intros (path & df & Hev & _). apply Hin in Hev. rewrite Hfs in Hev.
    inversion Hev.
  - split; [intros Habs; discriminate Habs|].
    intros (path & df & Hev & _). apply Hin in Hev. rewrite Hfs in Hev.
    inversion Hev as [|? ? ? Hev']; inversion Hev'.
  - split; [intros Habs; discriminate Habs|].
    intros (path & df0 & Hev & Hok). apply Hin in Hev. rewrite Hfs in Hev.
    inversion Hev as [|? ? ? Hev']; subst.
    inversion Hev' as [|? ? ? Hev'']; subst; [congruence | inversion Hev''].
  - split; [|reflexivity]. intros _. eexists _, _. split; [|exact Hcsv].
    apply Hin. rewrite Hfs. apply list_elem_of_further, list_elem_of_here.
Qed.

(** X7: a run returns [True] exactly when it wrote a CSV file and the
    write did not raise. *)
Theorem returns_true_iff_file_written (self : CryptoDataFetcher)
    (env : Env) (w : World) :
  fst (fetch_and_save_data self env w) = Ret true
  <-> exists (path : string) (df : DataFrame),
        EvToCsv path df ∈ run_events self env w
        /\ to_csv env path df = None.
Proof.
  unfold run_events.
  destruct (fetch_and_save_data_run self env w) as (evs & Htr & Hshape).
  rewrite (new_events_of_extension _ _ _ Htr).
  by apply run_shape_saved.
Qed.

(** X8: leaving aside what goes to the log file, a run makes at most
    two file-system calls, whatever happens: the creation of the
    directory [data/raw] and the writing of one non-empty frame to
    [data/raw/crypto_market_data_<time>.csv].  It creates no other
    directory, writes no other data file and never an empty frame. *)
Theorem run_writes_only_the_artifact (self : CryptoDataFetcher)
    (env : Env) (w : World) :
  (length (filter is_fs_write (run_events self env w)) <= 2)%nat
  /\ forall ev : Event,
       ev ∈ filter is_fs_write (run_events self env w) ->
       ev = EvMakedirs "data/raw"
       \/ exists (t : datetime) (df : DataFrame),
            ev = EvToCsv (artifact_path t) df
            /\ df_empty df = false
            /\ os_path_dirname (artifact_path t) = "data/raw".
Proof.
  unfold run_events.
  destruct (fetch_and_save_data_run self env w) as (evs & Htr & Hshape).
  rewrite (new_events_of_extension _ _ _ Htr).
  destruct (fetch_and_save_data self env w) as [res w']. cbn [fst snd] in *.
  inversion Hshape as [? Hfs Hrep|? Hmk Hfs Hrep|? ? ? Hne Hcsv Hfs Hrep
                       |? ? ? Hne Hmk Hcsv Hfs Hrep]; subst; rewrite Hfs;
    (split; [cbn; lia|]); intros ev Hev.
  - inversion Hev.
  - inversion Hev as [|? ? ? Hev']; subst; [by left | inversion Hev'].
  - inversion Hev as [|? ? ? Hev']; subst; [by left|].
    inversion Hev' as [|? ? ? Hev'']; subst; [|inversion Hev''].
    right. eexists _, _. split; [reflexivity|]. split; [done | apply artifact_dirname].
  - inversion Hev as [|? ? ? Hev']; subst; [by left|].
    inversion Hev' as [|? ? ? Hev'']; subst; [|inversion Hev''].
    right. eexists _, _. split; [reflexivity|]. split; [done | apply artifact_dirname].
Qed.

Section WholeRuns.

Variable self : CryptoDataFetcher.
Variable env : Env.

Lemma fetch_market_data_success (endpoint : string) (response : Response)
    (v : json) (rate : Z) (w : World) :
  cfg_market_data_endpoint (config self) = Some endpoint ->
  requests_get env (base_url self +:+ endpoint) (market_data_params self)
    (timeout self) = inr response ->
  (400 <=? status_code response) && (status_code response <? 600) = false ->
  body response = inr v ->
  cfg_rate_limit_per_minute (config self) = Some rate ->
  0 < rate ->
  fetch_market_data self env w
  = (Ret v,
     {| ticks := ticks w;
        trace := trace w
                 ++ [EvLog INFO [Txt "Fetching market data for ";
                                 Num (length (tracked_coins self));
                                 Txt " cryptocurrencies"];
                     EvLog INFO [Txt "Making API request to: ";
                                 Txt (base_url self +:+ endpoint)];
                     EvHttpGet (base_url self +:+ endpoint)
                       (market_data_params self) (timeout self);
                     EvSleep 60 rate] |}).
Proof.
  intros Hep Hget Hstatus Hbody Hrate Hpos.
  unfold fetch_market_data. rewrite Hep. run_monad.
  fold (market_data_params self).
  rewrite (request_returns_decoded_body self env _ _ _ _ _ _
             Hget Hstatus Hbody Hrate Hpos).
  cbn [trace ticks]. by rewrite <- !app_assoc.
Qed.

(** X9: the whole pipeline on a good day.  When the server accepts
    the request and answers with a non-empty list of mapping records,
    the rate limit is positive and the file system cooperates, the run
    returns [True] and writes, after creating [data/raw], exactly one
    file: the frame with one row per record, in the order received,
    under the name built from the clock reading that follows the
    readings of the rows. *)
Theorem well_formed_answer_is_saved (endpoint : string) (response : Response)
    (rate : Z) (d : gmap string json) (ds : list (gmap string json))
    (w : World) :
  cfg_market_data_endpoint (config self) = Some endpoint ->
  requests_get env (base_url self +:+ endpoint) (market_data_params self)
    (timeout self) = inr response ->
  (400 <=? status_code response) && (status_code response <? 600) = false ->
  body response = inr (JArr (JObj <$> (d :: ds))) ->
  cfg_rate_limit_per_minute (config self) = Some rate ->
  0 < rate ->
  os_makedirs env "data/raw" = None ->
  to_csv env (artifact_path (now env (ticks w + length (d :: ds))%nat))
    (pd_DataFrame (rows_from env (ticks w) (d :: ds))) = None ->
  fst (fetch_and_save_data self env w) = Ret true
  /\ filter is_fs_write (run_events self env w)
     = [EvMakedirs "data/raw";
        EvToCsv (artifact_path (now env (ticks w + length (d :: ds))%nat))
          (pd_DataFrame (rows_from env (ticks w) (d :: ds)))]
  /\ df_len (pd_DataFrame (rows_from env (ticks w) (d :: ds))) = length (d :: ds).
Proof.
  intros Hep Hget Hstatus Hbody Hrate Hpos Hmk Hcsv.
  pose proof (fetch_market_data_success _ _ _ _ (record starting w)
                Hep Hget Hstatus Hbody Hrate Hpos) as Hfetch.
  match type of Hfetch with _ = (_, ?w1) =>
    pose proof (process_market_data_dicts self env d ds w1) as Hprocess;
    set (world1 := w1) in * end.
  match type of Hprocess with _ = (_, ?w2) =>
    assert (Hsave : save_to_csv self
                      (pd_DataFrame (rows_from env (ticks w) (d :: ds))) env w2
                    = (Ret (artifact_path (now env (ticks w + length (d :: ds))%nat)),
                       record (EvLog INFO
                                 [Txt "Data saved to ";
                                  Txt (artifact_path
                                         (now env (ticks w + length (d :: ds))%nat))])
                         (record (EvToCsv
                                    (artifact_path
                                       (now env (ticks w + length (d :: ds))%nat))
                                    (pd_DataFrame (rows_from env (ticks w) (d :: ds))))
                            (record (EvMakedirs "data/raw") (tick w2)))));
    [rewrite save_to_csv_nonempty by reflexivity; cbv zeta;
     cbn [ticks world1 record]; rewrite artifact_dirname, Hmk, Hcsv; reflexivity|];
    set (world2 := w2) in * end.
  pose proof (fetch_and_save_data_after_normalize self env _ _ _ _ _ _ _
                Hfetch eq_refl Hprocess eq_refl Hsave) as Hrun.
  rewrite artifact_path_not_empty in Hrun.
  unfold run_events. rewrite Hrun. cbn [fst snd].
  split; [reflexivity|]. split.
  - unfold world2, world1, record, tick. cbn [trace ticks].
    rewrite <- !app_assoc, new_events_app. reflexivity.
  - unfold df_len. cbn [df_records pd_DataFrame]. apply rows_from_length.
Qed.

(** X10: when the endpoint is missing from the configuration, the run
    fails on the [KeyError] before any network activity: it logs its
    start and the unexpected error, makes no request and returns
    [False]. *)
Theorem run_without_endpoint_makes_no_request (w : World) :
  cfg_market_data_endpoint (config self) = None ->
  fetch_and_save_data self env w
  = (Ret false,
     {| ticks := ticks w;
        trace := trace w
                 ++ [starting;
                     EvLog ERROR [Txt "Unexpected error in fetch_and_save_data: ";
                                  Err (Exn KeyError "market_data")]] |}).
Proof.
  intros Hep. unfold fetch_and_save_data. run_monad.
  rewrite (fetch_without_endpoint_raises self env _ Hep). run_monad.
  by rewrite <- !app_assoc.
Qed.

(** X11: when the HTTP call raises a request exception or the server
    answers with an error status, the run fails at the fetch stage: it
    returns [False], reports the fetch stage alone, and has neither
    slept, read the clock nor written anything. *)
Theorem failed_call_fails_the_run_at_fetch (endpoint : string) (w : World) :
  cfg_market_data_endpoint (config self) = Some endpoint ->
  match requests_get env (base_url self +:+ endpoint) (market_data_params self)
          (timeout self) with
  | inl e => is_RequestException e = true
  | inr response =>
      (400 <=? status_code response) && (status_code response <? 600) = true
  end ->
  fst (fetch_and_save_data self env w) = Ret false
  /\ reported_failures (run_events self env w) = [StageFetch]
  /\ filter is_fs_write (run_events self env w) = []
  /\ filter is_sleep (run_events self env w) = []
  /\ ticks (snd (fetch_and_save_data self env w)) = ticks w.
Proof.
  intros Hep Hfail. unfold run_events, fetch_and_save_data, fetch_market_data.
  rewrite Hep. run_monad. fold (market_data_params self).
  unfold _make_api_request. run_monad.
  destruct (requests_get env (base_url self +:+ endpoint) (market_data_params self)
              (timeout self)) as [e|response]; run_monad.
  - rewrite Hfail. run_monad. cbn [truthy negb]. run_monad.
    rewrite <- !app_assoc, new_events_app. repeat split; reflexivity.
  - rewrite Hfail. run_monad. cbn [is_RequestException exn_cls]. run_monad.
    cbn [truthy negb]. run_monad.
    rewrite <- !app_assoc, new_events_app. repeat split; reflexivity.
Qed.

(** X12: on a frame that is not empty, [save_to_csv] first creates
    [data/raw] and writes the file only if that succeeded; the path it
    returns is the path it wrote to, and it returns a path only when
    both steps succeeded. *)
Theorem save_writes_only_after_directory (df : DataFrame) (w : World) :
  df_empty df = false ->
  filter is_fs_write (new_events w (snd (save_to_csv self df env w)))
  = EvMakedirs "data/raw"
    :: match os_makedirs env "data/raw" with
       | Some _ => []
       | None => [EvToCsv (artifact_path (now env (ticks w))) df]
       end
  /\ fst (save_to_csv self df env w)
     = Ret match os_makedirs env "data/raw",
                 to_csv env (artifact_path (now env (ticks w))) df with
           | None, None => artifact_path (now env (ticks w))
           | _, _ => ""
           end.
Proof.
  intros Hne. rewrite (save_to_csv_nonempty self env _ _ Hne). cbv zeta.
  rewrite artifact_dirname.
  destruct (os_makedirs env "data/raw") as [e|].
  - unfold record, tick. cbn [fst snd trace ticks].
    rewrite <- !app_assoc, new_events_app. split; reflexivity.
  - destruct (to_csv env (artifact_path (now env (ticks w))) df) as [e|];
      unfold record, tick; cbn [fst snd trace ticks];
      rewrite <- !app_assoc, new_events_app; split; reflexivity.
Qed.

(** X13: the file name has the resolution of a second.  Two frames
    saved one after the other while the clock stays within one second
    go to the same path: the second write replaces the first. *)
Theorem saves_within_one_second_collide (df1 df2 : DataFrame) (w : World) :
  df_empty df1 = false ->
  df_empty df2 = false ->
  os_makedirs env "data/raw" = None ->
  to_csv env (artifact_path (now env (ticks w))) df1 = None ->
  to_csv env (artifact_path (now env (S (ticks w)))) df2 = None ->
  strftime_Ymd_HMS (now env (ticks w)) = strftime_Ymd_HMS (now env (S (ticks w))) ->
  exists path : string,
    fst (save_to_csv self df1 env w) = Ret path
    /\ fst (save_to_csv self df2 env (snd (save_to_csv self df1 env w))) = Ret path
    /\ path <> "".
Proof.
  intros Hne1 Hne2 Hmk Hcsv1 Hcsv2 Hsame.
  exists (artifact_path (now env (ticks w))).
  rewrite (save_to_csv_nonempty self env _ _ Hne1). cbv zeta.
  rewrite artifact_dirname, Hmk, Hcsv1. cbn [fst snd].
  rewrite (save_to_csv_nonempty self env _ _ Hne2). cbv zeta.
  unfold record, tick. cbn [ticks].
  rewrite artifact_dirname, Hmk, Hcsv2. cbn [fst].
  split; [reflexivity|]. split.
  - unfold artifact_path. by rewrite Hsame.
  - intros Habs. pose proof (artifact_path_not_empty (now env (ticks w))) as Hp.
    rewrite Habs in Hp. discriminate Hp.
Qed.

End WholeRuns.

(** ** Initialization and the entry point *)

(** Building the fetcher adds to the trace at most the creation of the
    log directory and the opening of the log file. *)
Lemma __init___events (env : Env) (config_path : string) (w : World) :
  exists evs : list Event,
    trace (snd (__init__ config_path env w)) = trace w ++ evs
    /\ setup_events evs.
Proof.
  unfold __init__, _load_config, _setup_logging. unfold bind at 1.
  destruct (read_config env config_path) as [| | |c]; try init_stops.
  run_monad.
  destruct (cfg_logging c) as [log_config|]; run_monad; [|init_stops].
  destruct (log_file log_config) as [file|]; run_monad; [|init_stops].
  destruct (os_makedirs env (os_path_dirname file)); run_monad; [init_stops|].
  destruct (log_level log_config) as [level_name|]; run_monad; [|init_stops].
  destruct (logging_getattr env level_name); run_monad; [init_stops|].
  destruct (log_format log_config) as [format|]; run_monad; [|init_stops].
  destruct (logging_FileHandler env file); run_monad; [init_stops|].
  destruct (logging_basicConfig env level_name format); run_monad; [init_stops|].
  destruct (cfg_base_url c); run_monad; [|init_stops].
  destruct (cfg_timeout c); run_monad; [|init_stops].
  destruct (cfg_tracked_coins c); run_monad; init_stops.
Qed.

(** X14: when building the fetcher raises (no configuration file, a
    YAML error, a missing key, logging that cannot be set up), [main]
    does nothing of the pipeline: besides at most the creation of the
    log directory and the opening of the log file, which creates it,
    its only effect is the line it prints; no request is made and no
    CSV file is written. *)
Theorem failed_init_runs_no_pipeline (env : Env) (w w1 : World) (e : exn) :
  __init__ "config/config.yaml" env w = (Raise e, w1) ->
  exists evs : list Event,
    new_events w (snd (main env w))
    = evs ++ [EvPrint [Txt "Error initializing crypto data fetcher: "; Err e]]
    /\ setup_events evs
    /\ filter is_http_get (new_events w (snd (main env w))) = []
    /\ forall (path : string) (df : DataFrame),
         EvToCsv path df ∉ new_events w (snd (main env w)).
Proof.
  intros Hinit.
  destruct (__init___events env "config/config.yaml" w) as (evs & Htr & Hevs).
  rewrite Hinit in Htr. cbn [snd] in Htr.
  assert (Hmain : new_events w (snd (main env w))
                  = evs ++ [EvPrint [Txt "Error initializing crypto data fetcher: ";
                                     Err e]]).
  { unfold main, try_except, bind. rewrite Hinit. unfold print, emit. cbn [snd].
    apply new_events_of_extension. cbn [trace]. by rewrite Htr, <- app_assoc. }
  exists evs. rewrite Hmain. split; [reflexivity|]. split; [exact Hevs|].
  destruct Hevs as [-> | [file [-> | ->]]]; (split; [reflexivity|]);
    intros path df; stage_not_listed.
Qed.

(** [main] by cases on what building the fetcher and the run do. *)
Lemma main_cases (env : Env) (w : World) :
  main env w
  = match __init__ "config/config.yaml" env w with
    | (Ret fetcher, w1) =>
        match fetch_and_save_data fetcher env w1 with
        | (Ret true, w2) =>
            (Ret tt,
             record (EvPrint [Txt "Crypto data fetch completed successfully!"]) w2)
        | (Ret false, w2) =>
            (Ret tt,
             record (EvPrint [Txt "Crypto data fetch failed. Check logs for details."])
               w2)
        | (Raise e, w2) =>
            (Ret tt,
             record (EvPrint [Txt "Error initializing crypto data fetcher: "; Err e])
               w2)
        end
    | (Raise e, w1) =>
        (Ret tt,
         record (EvPrint [Txt "Error initializing crypto data fetcher: "; Err e]) w1)
    end.
Proof.
  unfold main, try_except, bind.
  destruct (__init__ "config/config.yaml" env w) as [[fetcher|e] w1]; [|reflexivity].
  destruct (fetch_and_save_data fetcher env w1) as [[[]|e] w2]; reflexivity.
Qed.

(** X15: [main] ends on the line "Crypto data fetch completed
    successfully!" exactly when the run wrote a CSV file and the write
    did not raise. *)
Theorem success_line_iff_file_written (env : Env) (w : World) :
  last (trace (snd (main env w)))
  = Some (EvPrint [Txt "Crypto data fetch completed successfully!"])
  <-> exists (path : string) (df : DataFrame),
        EvToCsv path df ∈ new_events w (snd (main env w))
        /\ to_csv env path df = None.
Proof.
  destruct (__init___events env "config/config.yaml" w) as (ievs & Hitr & Hievs).
  rewrite main_cases.
  destruct (__init__ "config/config.yaml" env w) as [[fetcher|e] w1];
    cbn [snd] in Hitr.
  - destruct (fetch_and_save_data_run fetcher env w1) as (evs & Htr & Hshape).
    pose proof (run_shape_saved _ _ _ Hshape) as Hsaved.
    destruct (fetch_and_save_data fetcher env w1) as [[b|e] w2];
      cbn [fst snd] in *; [|inversion Hshape].
    assert (Hnew : forall message,
               new_events w (record (EvPrint message) w2)
               = ievs ++ evs ++ [EvPrint message]).
    { intros message. apply new_events_of_extension. cbn [record trace].
      by rewrite Htr, Hitr, <- !app_assoc. }
    assert (Hin : forall message path df,
               EvToCsv path df ∈ ievs ++ evs ++ [EvPrint message]
               <-> EvToCsv path df ∈ evs).
    { intros message path df. rewrite !elem_of_app. split; [|auto].
      intros [Hi|[Hev|Hp]]; [|exact Hev|].
      - destruct Hievs as [-> | [file [-> | ->]]]; revert Hi; stage_not_listed.
      - revert Hp; stage_not_listed. }
    destruct b; cbn [snd]; rewrite Hnew; cbn [record trace]; rewrite last_snoc.
    + split; [intros _|reflexivity].
      destruct (proj1 Hsaved eq_refl) as (path & df & Hev & Hok).
      exists path, df. by rewrite Hin.
    + split; [intros Habs; discriminate Habs|].
      intros (path & df & Hev & Hok). rewrite Hin in Hev.
      assert (Habs : Ret false = Ret true) by (apply Hsaved; eauto).
      discriminate Habs.
  - cbn [snd record trace]. rewrite last_snoc.
    split; [intros Habs; discriminate Habs|].
    intros (path & df & Hev & _). exfalso. revert Hev.
    rewrite (new_events_of_extension w _ (ievs ++ [EvPrint
               [Txt "Error initializing crypto data fetcher: "; Err e]]));
      [|cbn [record trace]; by rewrite Hitr, <- app_assoc].
    destruct Hievs as [-> | [file [-> | ->]]]; stage_not_listed.
Qed.

(** X16: building the fetcher succeeds exactly when the configuration
    file parses, has its [logging] section with the keys [file],
    [level] and [format], the log directory can be created, the level
    name is found in the [logging] module, the log file can be opened,
    [basicConfig] accepts the level and the format, and the keys
    [base_url], [timeout] and [tracked_coins] are present.  The rate
    limit and the endpoint are not looked at: a configuration without
    them passes. *)
Theorem init_returns_iff (env : Env) (config_path : string) (w : World) :
  (exists (fetcher : CryptoDataFetcher) (w' : World),
     __init__ config_path env w = (Ret fetcher, w'))
  <-> exists (c : Config) (log_config : LogConfig) (file level_name format : string)
             (url : string) (tmo : Z) (coins : list string),
        read_config env config_path = ConfigParsed c
        /\ cfg_logging c = Some log_config
        /\ log_file log_config = Some file
        /\ os_makedirs env (os_path_dirname file) = None
        /\ log_level log_config = Some level_name
        /\ logging_getattr env level_name = None
        /\ log_format log_config = Some format
        /\ logging_FileHandler env file = None
        /\ logging_basicConfig env level_name format = None
        /\ cfg_base_url c = Some url
        /\ cfg_timeout c = Some tmo
        /\ cfg_tracked_coins c = Some coins.
Proof.
  unfold __init__, _load_config, _setup_logging. unfold bind at 1. split.
  - intros (fetcher & w' & H).
    destruct (read_config env config_path) as [| | |c] eqn:Hread; try discriminate H.
    exists c. revert H. run_monad.
    destruct (cfg_logging c) as [log_config|] eqn:Hlog; run_monad;
      [|intros Hx; discriminate Hx].
    destruct (log_file log_config) as [file|] eqn:Hfile; run_monad;
      [|intros Hx; discriminate Hx].
    destruct (os_makedirs env (os_path_dirname file)) eqn:Hmk;
      run_monad; [intros Hx; discriminate Hx|].
    destruct (log_level log_config) as [level_name|] eqn:Hlevel; run_monad;
      [|intros Hx; discriminate Hx].
    destruct (logging_getattr env level_name) eqn:Hattr; run_monad;
      [intros Hx; discriminate Hx|].
    destruct (log_format log_config) as [format|] eqn:Hformat; run_monad;
      [|intros Hx; discriminate Hx].
    destruct (logging_FileHandler env file) eqn:Hopen; run_monad;
      [intros Hx; discriminate Hx|].
    destruct (logging_basicConfig env level_name format) eqn:Hbc; run_monad;
      [intros Hx; discriminate Hx|].
    destruct (cfg_base_url c) as [url|] eqn:Hu; run_monad;
      [|intros Hx; discriminate Hx].
    destruct (cfg_timeout c) as [tmo|] eqn:Ht; run_monad;
      [|intros Hx; discriminate Hx].
    destruct (cfg_tracked_coins c) as [coins|] eqn:Hc; run_monad;
      [|intros Hx; discriminate Hx].
    intros _. exists log_config, file, level_name, format, url, tmo, coins.
    repeat split; assumption || reflexivity.
  - intros (c & log_config & file & level_name & format & url & tmo & coins
            & -> & Hlog & Hfile & Hmk & Hlevel & Hattr & Hformat & Hopen & Hbc
            & Hu & Ht & Hc).
    run_monad. rewrite Hlog. run_monad. rewrite Hfile. run_monad.
    rewrite Hmk. run_monad. rewrite Hlevel. run_monad. rewrite Hattr. run_monad.
    rewrite Hformat. run_monad. rewrite Hopen. run_monad. rewrite Hbc. run_monad.
    rewrite Hu. run_monad. rewrite Ht. run_monad. rewrite Hc. run_monad. eauto.
Qed.

(** ** The properties at sample worlds *)

Lemma fetch_makes_exactly_one_request_witness :
  cfg_market_data_endpoint (config sample_fetcher) = Some "/coins/markets"
  /\ filter is_http_get
       (new_events initial_world
          (snd (fetch_market_data sample_fetcher (env_answering server_error)
                  initial_world)))
     = [EvHttpGet (base_url sample_fetcher +:+ "/coins/markets")
          (market_data_params sample_fetcher) (timeout sample_fetcher)].
Proof.
  split; [reflexivity|].
  exact (fetch_makes_exactly_one_request sample_fetcher (env_answering server_error)
           "/coins/markets" initial_world eq_refl).
Defined.

Lemma unusable_rate_limit_raises_witness :
  requests_get good_day
    (base_url (fetcher_with (config_with_rate (Some 0))) +:+ "/coins/markets") []
    (timeout (fetcher_with (config_with_rate (Some 0)))) = inr good_response
  /\ (400 <=? status_code good_response) && (status_code good_response <? 600) = false
  /\ cfg_rate_limit_per_minute (config (fetcher_with (config_with_rate (Some 0))))
     = Some 0
  /\ exists e : exn,
       fst (_make_api_request (fetcher_with (config_with_rate (Some 0)))
              "/coins/markets" [] good_day initial_world) = Raise e
       /\ (exn_cls e = KeyError \/ exn_cls e = ZeroDivisionError).
Proof.
  split; [reflexivity|]. split; [reflexivity|]. split; [reflexivity|].
  destruct (unusable_rate_limit_raises (fetcher_with (config_with_rate (Some 0)))
              good_day "/coins/markets" [] good_response initial_world
              eq_refl eq_refl (or_intror eq_refl)) as (e & He & Hcls & _).
  exists e. split; [exact He | exact Hcls].
Defined.

Lemma negative_rate_limit_loses_the_answer_witness :
  requests_get good_day
    (base_url (fetcher_with (config_with_rate (Some (-5)))) +:+ "/coins/markets") []
    (timeout (fetcher_with (config_with_rate (Some (-5))))) = inr good_response
  /\ (400 <=? status_code good_response) && (status_code good_response <? 600) = false
  /\ cfg_rate_limit_per_minute (config (fetcher_with (config_with_rate (Some (-5)))))
     = Some (-5)
  /\ - float_underflow_bound < -5 < 0
  /\ fst (_make_api_request (fetcher_with (config_with_rate (Some (-5))))
            "/coins/markets" [] good_day initial_world) = Ret JNull.
Proof.
  assert (Hneg : - float_underflow_bound < -5 < 0) by (split; reflexivity).
  split; [reflexivity|]. split; [reflexivity|]. split; [reflexivity|].
  split; [exact Hneg|].
  rewrite (negative_rate_limit_loses_the_answer
             (fetcher_with (config_with_rate (Some (-5)))) good_day
             "/coins/markets" [] good_response (-5) initial_world
             eq_refl eq_refl eq_refl Hneg).
  reflexivity.
Defined.

Lemma normalize_failure_is_never_reported_witness :
  StageNormalize ∉ reported_failures (run_events sample_fetcher good_day initial_world).
Proof.
  exact (proj1 (normalize_failure_is_never_reported sample_fetcher good_day
                  initial_world)).
Defined.

Lemma returns_true_iff_file_written_witness :
  fst (fetch_and_save_data sample_fetcher good_day initial_world) = Ret true
  /\ exists (path : string) (df : DataFrame),
       EvToCsv path df ∈ run_events sample_fetcher good_day initial_world
       /\ to_csv good_day path df = None.
Proof.
  assert (H : fst (fetch_and_save_data sample_fetcher good_day initial_world)
              = Ret true) by (vm_compute; reflexivity).
  split; [exact H|].
  exact (proj1 (returns_true_iff_file_written sample_fetcher good_day initial_world) H).
Defined.

Lemma run_writes_only_the_artifact_witness :
  (length (filter is_fs_write (run_events sample_fetcher good_day initial_world)) <= 2)%nat.
Proof.
  exact (proj1 (run_writes_only_the_artifact sample_fetcher good_day initial_world)).
Defined.

Lemma well_formed_answer_is_saved_witness :
  (cfg_market_data_endpoint (config sample_fetcher) = Some "/coins/markets"
   /\ requests_get good_day (base_url sample_fetcher +:+ "/coins/markets")
        (market_data_params sample_fetcher) (timeout sample_fetcher)
      = inr good_response
   /\ (400 <=? status_code good_response) && (status_code good_response <? 600) = false
   /\ body good_response = inr (JArr (JObj <$> [bitcoin; ethereum]))
   /\ cfg_rate_limit_per_minute (config sample_fetcher) = Some 50
   /\ 0 < 50
   /\ os_makedirs good_day "data/raw" = None
   /\ to_csv good_day
        (artifact_path (now good_day (ticks initial_world + length [bitcoin; ethereum])%nat))
        (pd_DataFrame (rows_from good_day (ticks initial_world) [bitcoin; ethereum]))
      = None)
  /\ fst (fetch_and_save_data sample_fetcher good_day initial_world) = Ret true.
Proof.
  assert (Hpos : 0 < 50) by lia.
  split.
  - repeat split; reflexivity.
  - exact (proj1 (well_formed_answer_is_saved sample_fetcher good_day
                    "/coins/markets" good_response 50 bitcoin [ethereum]
                    initial_world eq_refl eq_refl eq_refl eq_refl eq_refl Hpos
                    eq_refl eq_refl)).
Defined.

Lemma run_without_endpoint_makes_no_request_witness :
  cfg_market_data_endpoint (config (fetcher_with config_without_endpoint)) = None
  /\ fst (fetch_and_save_data (fetcher_with config_without_endpoint) good_day
            initial_world) = Ret false.
Proof.
  split; [reflexivity|].
  rewrite (run_without_endpoint_makes_no_request
             (fetcher_with config_without_endpoint) good_day initial_world eq_refl).
  reflexivity.
Defined.

Lemma failed_call_fails_the_run_at_fetch_witness :
  cfg_market_data_endpoint (config sample_fetcher) = Some "/coins/markets"
  /\ (400 <=? 500) && (500 <? 600) = true
  /\ fst (fetch_and_save_data sample_fetcher (env_answering server_error)
            initial_world) = Ret false
  /\ reported_failures
       (run_events sample_fetcher (env_answering server_error) initial_world)
     = [StageFetch].
Proof.
  split; [reflexivity|]. split; [reflexivity|].
  destruct (failed_call_fails_the_run_at_fetch sample_fetcher
              (env_answering server_error) "/coins/markets" initial_world
              eq_refl eq_refl) as (Hres & Hstage & _).
  split; [exact Hres | exact Hstage].
Defined.

Lemma save_writes_only_after_directory_witness :
  df_empty two_rows = false
  /\ fst (save_to_csv sample_fetcher two_rows disk_full initial_world) = Ret "".
Proof.
  split; [reflexivity|].
  exact (proj2 (save_writes_only_after_directory sample_fetcher disk_full two_rows
                  initial_world eq_refl)).
Defined.

Lemma saves_within_one_second_collide_witness :
  (df_empty two_rows = false
   /\ os_makedirs good_day "data/raw" = None
   /\ to_csv good_day (artifact_path (now good_day (ticks initial_world))) two_rows
      = None
   /\ to_csv good_day (artifact_path (now good_day (S (ticks initial_world)))) two_rows
      = None
   /\ strftime_Ymd_HMS (now good_day (ticks initial_world))
      = strftime_Ymd_HMS (now good_day (S (ticks initial_world))))
  /\ exists path : string,
       fst (save_to_csv sample_fetcher two_rows good_day initial_world) = Ret path
       /\ fst (save_to_csv sample_fetcher two_rows good_day
                 (snd (save_to_csv sample_fetcher two_rows good_day initial_world)))
          = Ret path
       /\ path <> "".
Proof.
  split.
  - repeat split; reflexivity.
  - exact (saves_within_one_second_collide sample_fetcher good_day two_rows two_rows
             initial_world eq_refl eq_refl eq_refl eq_refl eq_refl eq_refl).
Defined.

Lemma failed_init_runs_no_pipeline_witness :
  __init__ "config/config.yaml" env_without_config initial_world
  = (Raise (Exn FileNotFoundError
              "Configuration file not found: config/config.yaml"), initial_world)
  /\ filter is_http_get (new_events initial_world
                           (snd (main env_without_config initial_world))) = [].
Proof.
  assert (H : __init__ "config/config.yaml" env_without_config initial_world
              = (Raise (Exn FileNotFoundError
                          "Configuration file not found: config/config.yaml"),
                 initial_world)) by reflexivity.
  split; [exact H|].
  destruct (failed_init_runs_no_pipeline env_without_config initial_world _ _ H)
    as (evs & _ & _ & Hget & _).
  exact Hget.
Defined.

Lemma success_line_iff_file_written_witness :
  last (trace (snd (main good_day initial_world)))
  = Some (EvPrint [Txt "Crypto data fetch completed successfully!"])
  /\ exists (path : string) (df : DataFrame),
       EvToCsv path df ∈ new_events initial_world (snd (main good_day initial_world))
       /\ to_csv good_day path df = None.
Proof.
  assert (H : last (trace (snd (main good_day initial_world)))
              = Some (EvPrint [Txt "Crypto data fetch completed successfully!"]))
    by (vm_compute; reflexivity).
  split; [exact H|].
  exact (proj1 (success_line_iff_file_written good_day initial_world) H).
Defined.

Lemma init_returns_iff_witness :
  exists (fetcher : CryptoDataFetcher) (w' : World),
    __init__ "config/config.yaml" good_day initial_world = (Ret fetcher, w').
Proof.
  apply (proj2 (init_returns_iff good_day "config/config.yaml" initial_world)).
  exists sample_config. eexists _, _, _, _, _, _, _. repeat split; reflexivity.
Defined.
